(** * @egomobile/http-prometheus: [setupPromClient]

    A shallow embedding of the two versions of [setupPromClient] found in
    the repository:

    - [Index.setupPromClient]   : src/src/index.ts
    - [Part000.setupPromClient] : src/unnamed/part_000 (accepts a bare
      provider function as third argument)

    JavaScript values are an inductive type; arrays, plain objects and
    [promClient.Registry] instances live in a heap of locations, so that
    identity and aliasing are visible. Effects on the collaborators
    (prom-client, the host server, the response object) are recorded in a
    trace. A thrown exception keeps the world built up to the throw.

    An object has own data properties, each enumerable or not, and the
    properties it inherits along its prototype chain; a read [o.k] sees
    all of them, a spread [{ ...o }] the own enumerable ones only. The
    server and its verb methods are such an object.

    Not modelled: accessor properties (a getter runs code at a read),
    promises that never settle, and host functions that write to the
    heap. *)

From Stdlib Require Import ZArith String List DecimalString DecimalZ.
From stdpp Require Import gmap strings list fin_maps.

Local Open Scope string_scope.

(** ** JavaScript values *)

Abbreviation loc := positive.

Inductive PromiseState := Fulfilled | Rejected.

(** Functions are values. The closures the source creates are described by
    what they capture; [Native] functions are supplied by the caller or the
    host (registry providers, the server's verb methods). Every character
    of a [string] stands for one UTF-16 code unit, so that [String.length]
    is the [.length] of the source. Promises are described by the state
    they settle in. *)
Inductive JSValue :=
| VUndefined
| VNull
| VBool (b : bool)
| VNumber (n : Z)
| VString (s : string)
| VError (name message : string)
| VPromise (st : PromiseState) (v : JSValue)
| VRef (l : loc)
| VFunction (f : FunBody)
with FunBody :=
| Native (id : nat)
| AsyncConst (v : JSValue)            (* async () => { return v; } *)
| AsAsync (func : JSValue)            (* asAsync(func) *)
| RequestHandler (getRegistry : JSValue). (* async function (request, response) {...} *)

(** Induction over values and the closures inside them. *)
Scheme JSValue_mut := Induction for JSValue Sort Prop
  with FunBody_mut := Induction for FunBody Sort Prop.

(** What a [promClient.Registry] shows to this package: its content type
    and what [metrics()] settles to (a body, or a rejection). *)
Record RegistryState := {
  contentType : string;
  metrics : string + JSValue
}.

(** An own data property: its value, and whether an enumeration of the
    object's properties sees it. *)
Record Slot := {
  slotValue : JSValue;
  enumerable : bool
}.

(** An object carries its own properties and, as [inherited], the
    properties a lookup finds along its prototype chain. *)
Inductive HeapObj :=
| HObject (own : gmap string Slot) (inherited : gmap string JSValue)
| HArray (elems : list JSValue)
| HRegistry (st : RegistryState).

(** An object literal [{ k1: v1, ... }]: every property own and
    enumerable, nothing of these names inherited. *)
Definition plainObject (props : gmap string JSValue) : HeapObj :=
  HObject ((fun v => {| slotValue := v; enumerable := true |}) <$> props) ∅.

Inductive Event :=
| EvNewRegistry (l : loc)                      (* new promClient.Registry() *)
| EvCollectDefaultMetrics (register : JSValue) (* promClient.collectDefaultMetrics({ register }) *)
| EvCall (id : nat) (this : JSValue) (args : list JSValue) (* a Native function is invoked *)
| EvWriteHead (response : JSValue) (status : Z) (headers : list (string * JSValue))
| EvWrite (response : JSValue) (chunk : JSValue).

Record World := {
  heap : gmap loc HeapObj;
  trace : list Event
}.

Inductive Completion (A : Type) :=
| Normal (a : A)
| Throw (e : JSValue).
Arguments Normal {A} a.
Arguments Throw {A} e.

(** State and exception monad: the world after a throw is the world at the
    throw. *)
Definition M (A : Type) : Type := World -> Completion A * World.

Definition ret {A} (a : A) : M A := fun w => (Normal a, w).
Definition throw {A} (e : JSValue) : M A := fun w => (Throw e, w).
Definition bind {A B} (m : M A) (k : A -> M B) : M B :=
  fun w => match m w with
           | (Normal a, w') => k a w'
           | (Throw e, w') => (Throw e, w')
           end.

Notation "x <- m ;; k" := (bind m (fun x => k))
  (at level 100, m at next level, right associativity).
Notation "m ;;; k" := (bind m (fun _ => k))
  (at level 100, right associativity).

Definition getHeap : M (gmap loc HeapObj) := fun w => (Normal (heap w), w).
Definition setHeap (h : gmap loc HeapObj) : M unit :=
  fun w => (Normal tt, {| heap := h; trace := trace w |}).
Definition emit (e : Event) : M unit :=
  fun w => (Normal tt, {| heap := heap w; trace := trace w ++ [e] |}).

(** [new TypeError(message)] *)
Definition TypeError (message : string) : JSValue := VError "TypeError" message.

Definition typeof (v : JSValue) : string :=
  match v with
  | VUndefined => "undefined"
  | VNull => "object"
  | VBool _ => "boolean"
  | VNumber _ => "number"
  | VString _ => "string"
  | VError _ _ => "object"
  | VPromise _ _ => "object"
  | VRef _ => "object"
  | VFunction _ => "function"
  end.

(** [v === true] *)
Definition is_true (v : JSValue) : bool :=
  match v with VBool true => true | _ => false end.

(** Modelled from the spec: [isNil] of ./utils/internal is not among the
    sources; the spec calls its positive case "absent/nil", the values
    [undefined] and [null] that [Nilable<T>] adds to [T]. *)
Definition isNil (v : JSValue) : bool :=
  match v with VUndefined | VNull => true | _ => false end.

(** Modelled from the spec: [asAsync] of ./utils/internal is not among the
    sources; the spec has it turn a provider, "whether it returns a
    Registry directly or returns a promise of one", into "a uniform
    function that always returns a promise", forwarding to the provider
    with no suspension of its own. *)
Definition asAsync (func : JSValue) : JSValue := VFunction (AsAsync func).

(** ** Heap access *)

(** [v?.key]: the own property of an object if it has one, enumerable or
    not, else the inherited one; other values have none of the properties
    read here. *)
Definition propOf (h : gmap loc HeapObj) (v : JSValue) (key : string) : JSValue :=
  match v with
  | VRef l => match h !! l with
              | Some (HObject own inherited) =>
                  match own !! key with
                  | Some slot => slotValue slot
                  | None => default VUndefined (inherited !! key)
                  end
              | _ => VUndefined
              end
  | _ => VUndefined
  end.

(** [arg instanceof promClient.Registry] *)
Definition instanceofRegistry (h : gmap loc HeapObj) (v : JSValue) : bool :=
  match v with
  | VRef l => match h !! l with Some (HRegistry _) => true | _ => false end
  | _ => false
  end.

(** [Array.isArray(v)] *)
Definition isArray (h : gmap loc HeapObj) (v : JSValue) : bool :=
  match v with
  | VRef l => match h !! l with Some (HArray _) => true | _ => false end
  | _ => false
  end.

(** The elements [...v] spreads into an argument list. *)
Definition elementsOf (h : gmap loc HeapObj) (v : JSValue) : list JSValue :=
  match v with
  | VRef l => match h !! l with Some (HArray elems) => elems | _ => [] end
  | _ => []
  end.

(** The properties [{ ...v }] copies into a new object literal: the own
    enumerable ones; inherited and non-enumerable properties are left
    behind. *)
Definition ownProps (h : gmap loc HeapObj) (v : JSValue) : gmap string JSValue :=
  match v with
  | VRef l => match h !! l with
              | Some (HObject own _) =>
                  omap (fun slot => if enumerable slot then Some (slotValue slot) else None)
                       own
              | _ => ∅
              end
  | _ => ∅
  end.

(** [v?.key] *)
Definition getPropOpt (v : JSValue) (key : string) : M JSValue :=
  h <- getHeap ;; ret (propOf h v key).

(** [v.key]: throws on [undefined] and [null]. *)
Definition getProp (v : JSValue) (key : string) : M JSValue :=
  if isNil v then throw (TypeError "Cannot read properties of undefined or null")
  else getPropOpt v key.

(** [[]], a new array. *)
Definition newArray : M JSValue :=
  h <- getHeap ;;
  let l := fresh (dom h) in
  setHeap (<[l := HArray []]> h) ;;;
  ret (VRef l).

(** [arr.push(...items)] *)
Definition push (arr : JSValue) (items : list JSValue) : M unit :=
  h <- getHeap ;;
  match arr with
  | VRef l => match h !! l with
              | Some (HArray elems) => setHeap (<[l := HArray (elems ++ items)]> h)
              | _ => throw (TypeError "push is not a function")
              end
  | _ => throw (TypeError "push is not a function")
  end.

(** ** Promises *)

(** The promise an async function returns for the completion of its body;
    a returned promise is adopted. *)
Definition settle (c : Completion JSValue) : JSValue :=
  match c with
  | Normal (VPromise st v) => VPromise st v
  | Normal v => VPromise Fulfilled v
  | Throw e => VPromise Rejected e
  end.

Definition async (body : M JSValue) : M JSValue :=
  fun w => let (c, w') := body w in (Normal (settle c), w').

(** [await v] *)
Definition await (v : JSValue) : M JSValue :=
  match v with
  | VPromise Fulfilled x => ret x
  | VPromise Rejected e => throw e
  | _ => ret v
  end.

(** [String(v)], for the numbers and strings a [.length] or a body can be. *)
Definition String_ (v : JSValue) : string :=
  match v with
  | VNumber n => NilZero.string_of_int (Z.to_int n)
  | VString s => s
  | _ => typeof v
  end.

(** [v.length] *)
Definition lengthOf (v : JSValue) : JSValue :=
  match v with
  | VString s => VNumber (Z.of_nat (String.length s))
  | _ => VUndefined
  end.

(** ** The collaborators *)

(** prom-client and the host: what a new registry looks like, what
    collecting the default metrics does to a registry, and what a call of
    a [Native] function completes with. *)
Record Collaborators := {
  newRegistryState : RegistryState;
  withDefaultMetrics : RegistryState -> RegistryState;
  nativeCall : nat -> JSValue -> list JSValue -> World -> Completion JSValue
}.

(** The value returned by [setupPromClient]. *)
Record ISetupPromClientResult := {
  getRegistry : JSValue;
  requestHandler : JSValue
}.

Section Semantics.
Variable env : Collaborators.

(** [new promClient.Registry()] *)
Definition newRegistry : M JSValue :=
  h <- getHeap ;;
  let l := fresh (dom h) in
  setHeap (<[l := HRegistry (newRegistryState env)]> h) ;;;
  emit (EvNewRegistry l) ;;;
  ret (VRef l).

(** [promClient.collectDefaultMetrics({ "register": registry })] *)
Definition collectDefaultMetrics (registry : JSValue) : M unit :=
  emit (EvCollectDefaultMetrics registry) ;;;
  h <- getHeap ;;
  match registry with
  | VRef l => match h !! l with
              | Some (HRegistry st) =>
                  setHeap (<[l := HRegistry (withDefaultMetrics env st)]> h)
              | _ => ret tt
              end
  | _ => ret tt
  end.

(** [registry.metrics()] *)
Definition Registry_metrics (registry : JSValue) : M JSValue :=
  h <- getHeap ;;
  match registry with
  | VRef l => match h !! l with
              | Some (HRegistry st) =>
                  ret (match metrics st with
                       | inl body => VPromise Fulfilled (VString body)
                       | inr e => VPromise Rejected e
                       end)
              | _ => throw (TypeError "registry.metrics is not a function")
              end
  | _ => throw (TypeError "registry.metrics is not a function")
  end.

(** [registry.contentType] *)
Definition Registry_contentType (registry : JSValue) : M JSValue :=
  h <- getHeap ;;
  match registry with
  | VRef l => match h !! l with
              | Some (HRegistry st) => ret (VString (contentType st))
              | _ => ret VUndefined
              end
  | _ => ret VUndefined
  end.

(** A call of a [Native] function: logged, completes as the host says. *)
Definition callNative (id : nat) (this : JSValue) (args : list JSValue) : M JSValue :=
  emit (EvCall id this args) ;;;
  (fun w => (nativeCall env id this args w, w)).

(** The body of [requestHandler] (index.ts 171-181, part_000 263-273), with
    the call [getRegistry()] as a parameter. *)
Definition requestHandlerBody (callGetRegistry : M JSValue) (response : JSValue) : M JSValue :=
  p <- callGetRegistry ;;
  registry <- await p ;;
  q <- Registry_metrics registry ;;
  responseData <- await q ;;
  ct <- Registry_contentType registry ;;
  emit (EvWriteHead response 200
          [("Content-Type", ct);
           ("Content-Length", VString (String_ (lengthOf responseData)))]) ;;;
  emit (EvWrite response responseData) ;;;
  ret VUndefined.

(** [f.call(this, ...args)] *)
Fixpoint callValue (f : JSValue) (this : JSValue) (args : list JSValue) {struct f} : M JSValue :=
  match f with
  | VFunction b => callBody b this args
  | _ => throw (TypeError "is not a function")
  end
with callBody (b : FunBody) (this : JSValue) (args : list JSValue) {struct b} : M JSValue :=
  match b with
  | Native id => callNative id this args
  | AsyncConst v => async (ret v)
  | AsAsync func => async (callValue func VUndefined args)
  | RequestHandler g =>
      async (requestHandlerBody (callValue g VUndefined []) (nth 1 args VUndefined))
  end.

End Semantics.

(** Heap tests and spreads at the current heap. *)
Definition instanceOf_Registry (v : JSValue) : M bool :=
  h <- getHeap ;; ret (instanceofRegistry h v).
Definition Array_isArray (v : JSValue) : M bool :=
  h <- getHeap ;; ret (isArray h v).
Definition spread (v : JSValue) : M (list JSValue) :=
  h <- getHeap ;; ret (elementsOf h v).

(** [options.key] on an object literal held in a local variable. *)
Definition field (options : gmap string JSValue) (key : string) : JSValue :=
  default VUndefined (options !! key).

(** ** src/src/index.ts *)
Module Index.
Section Setup.
Variable env : Collaborators.

Definition setupPromClient (server path arg3 : JSValue) : M ISetupPromClientResult :=
  marker <- getPropOpt server "isEgoHttpServer" ;;
  if negb (is_true marker) then
    throw (TypeError "server must be a valid e.GO HTTP server instance")
  else
  let httpMethod0 := VString "get" in
  use <- newArray ;;
  let getRegistry0 := VUndefined in
  isRegistry <- instanceOf_Registry arg3 ;;
  vars <-
    (if isRegistry then ret (VFunction (AsyncConst arg3), httpMethod0)
     else
       isArr <- Array_isArray arg3 ;;
       if isArr then
         items <- spread arg3 ;;
         push use items ;;;
         ret (getRegistry0, httpMethod0)
       else if String.eqb (typeof arg3) "string" then ret (getRegistry0, arg3)
       else
         (* getRegistry *)
         g <- getPropOpt arg3 "getRegistry" ;;
         getRegistry1 <-
           (if isNil g then
              registry <- newRegistry env ;;
              collectDefaultMetrics env registry ;;;
              ret (VFunction (AsyncConst registry))
            else getProp arg3 "getRegistry") ;;
         (* use *)
         u <- getPropOpt arg3 "use" ;;
         (if negb (isNil u) then
            u1 <- getPropOpt arg3 "use" ;;
            isArr1 <- Array_isArray u1 ;;
            if negb isArr1 then throw (TypeError "arg3.use must be of type array")
            else
              u2 <- getProp arg3 "use" ;;
              items <- spread u2 ;;
              push use items
          else ret tt) ;;;
         (* httpMethod *)
         m <- getPropOpt arg3 "httpMethod" ;;
         httpMethod1 <-
           (if negb (isNil m) then
              m1 <- getProp arg3 "httpMethod" ;;
              if negb (String.eqb (typeof m1) "string") then
                throw (TypeError "arg3.httpMethod must be of type string")
              else getProp arg3 "httpMethod"
            else ret httpMethod0) ;;
         ret (getRegistry1, httpMethod1)) ;;
  let '(getRegistry1, httpMethod) := vars in
  if negb (String.eqb (typeof getRegistry1) "function") then
    throw (TypeError "optionsOrRegistry is an invalid value")
  else
  let getRegistry2 := asAsync getRegistry1 in
  let handler := VFunction (RequestHandler getRegistry2) in
  verb <- getProp server (String_ httpMethod) ;;
  callValue env verb server [path; use; handler] ;;;
  ret {| getRegistry := getRegistry2; requestHandler := handler |}.

End Setup.
End Index.

(** ** src/unnamed/part_000 *)
Module Part000.

(** The [options] the third argument is turned into (part_000 190-224), a
    local object literal; the tests only read the heap. *)
Definition optionsOf (h : gmap loc HeapObj) (arg3 : JSValue) : gmap string JSValue :=
  if isNil arg3 then ∅
  else if instanceofRegistry h arg3 then
    {[ "getRegistry" := VFunction (AsyncConst arg3) ]}
  else if isArray h arg3 then {[ "use" := arg3 ]}
  else if String.eqb (typeof arg3) "object" then ownProps h arg3
  else if String.eqb (typeof arg3) "string" then {[ "httpMethod" := arg3 ]}
  else (* function *) {[ "getRegistry" := arg3 ]}.

Section Setup.
Variable env : Collaborators.

Definition setupPromClient (server path arg3 : JSValue) : M ISetupPromClientResult :=
  marker <- getPropOpt server "isEgoHttpServer" ;;
  if negb (is_true marker) then
    throw (TypeError "server must be a valid e.GO HTTP server instance")
  else
  let httpMethod0 := VString "get" in
  use <- newArray ;;
  h <- getHeap ;;
  let options0 := optionsOf h arg3 in
  (* getRegistry *)
  options <-
    (if isNil (field options0 "getRegistry") then
       registry <- newRegistry env ;;
       collectDefaultMetrics env registry ;;;
       ret (<[ "getRegistry" := VFunction (AsyncConst registry) ]> options0)
     else if negb (String.eqb (typeof (field options0 "getRegistry")) "function") then
       throw (TypeError "getRegistry must be of type function")
     else ret options0) ;;
  (* additional middlewares *)
  (if negb (isNil (field options "use")) then
     isArr <- Array_isArray (field options "use") ;;
     if isArr then
       items <- spread (field options "use") ;;
       push use items
     else throw (TypeError "use must be of type array")
   else ret tt) ;;;
  (* custom HTTP method *)
  httpMethod <-
    (if negb (isNil (field options "httpMethod")) then
       if String.eqb (typeof (field options "httpMethod")) "string" then
         ret (field options "httpMethod")
       else throw (TypeError "use must be of type array")
     else ret httpMethod0) ;;
  let getRegistry1 := asAsync (field options "getRegistry") in
  let handler := VFunction (RequestHandler getRegistry1) in
  (* register *)
  verb <- getProp server (String_ httpMethod) ;;
  callValue env verb server [path; use; handler] ;;;
  ret {| getRegistry := getRegistry1; requestHandler := handler |}.

End Setup.
End Part000.

(** ** A concrete world, for evaluation *)
Module Sample.

(** prom-client's text content type; an empty registry serialises to the
    empty string here, and the default metrics are stood for by one line. *)
Definition env : Collaborators := {|
  newRegistryState :=
    {| contentType := "text/plain; version=0.0.4; charset=utf-8";
       metrics := inl "" |};
  withDefaultMetrics := fun st =>
    {| contentType := contentType st;
       metrics := match metrics st with
                  | inl body => inl (body ++ "process_cpu_seconds_total 0")
                  | inr e => inr e
                  end |};
  nativeCall := fun id _ _ _ =>
    match id with
    | 7 => Normal (VRef 2)                        (* a synchronous provider *)
    | 8 => Normal (VPromise Fulfilled (VRef 2))   (* an asynchronous provider *)
    | _ => Normal VUndefined
    end
|}.

Definition serverObj : HeapObj :=
  plainObject (<["isEgoHttpServer" := VBool true]>
           (<["get" := VFunction (Native 0)]>
            (<["post" := VFunction (Native 1)]> ∅))).

Definition callerRegistry : RegistryState :=
  {| contentType := "text/plain; version=0.0.4; charset=utf-8";
     metrics := inl "up 1" |}.

(** 1: the server, 2: a registry of the caller, 3: an array of two
    middlewares, 4: options with [use] (the array at 3) and [httpMethod],
    5: options whose [use] is a number, 6: an object without the marker. *)
Definition world0 : World := {|
  heap := <[1%positive := serverObj]>
          (<[2%positive := HRegistry callerRegistry]>
          (<[3%positive := HArray [VFunction (Native 20); VFunction (Native 21)]]>
          (<[4%positive := plainObject (<["use" := VRef 3]> (<["httpMethod" := VString "post"]> ∅))]>
          (<[5%positive := plainObject (<["use" := VNumber 5]> ∅)]>
          (<[6%positive := plainObject ∅]> ∅)))));
  trace := []
|}.

Definition server : JSValue := VRef 1.
Definition path : JSValue := VString "/prometheus".

End Sample.

(** ** Vocabulary of the statements *)

(** [server?.isEgoHttpServer === true] *)
Definition validServer (h : gmap loc HeapObj) (server : JSValue) : bool :=
  is_true (propOf h server "isEgoHttpServer").

(** A reference points to an object of the heap. *)
Definition allocated (h : gmap loc HeapObj) (v : JSValue) : bool :=
  match v with
  | VRef l => match h !! l with Some _ => true | None => false end
  | _ => true
  end.

(** The third argument and the [use] it may carry are values of the heap
    they are read in. *)
Definition wellFormedArg (h : gmap loc HeapObj) (arg3 : JSValue) : bool :=
  allocated h arg3 && allocated h (propOf h arg3 "use").

(** An object has the property [key] the way an object literal has it: own
    and enumerable, or not at all, not even inherited. *)
Definition literalField (own : gmap string Slot) (inherited : gmap string JSValue)
    (key : string) : bool :=
  match own !! key with
  | Some slot => enumerable slot
  | None => match inherited !! key with Some _ => false | None => true end
  end.

(** An options object as a literal gives it: an object that has what it has
    of [getRegistry], [use] and [httpMethod] as own enumerable properties.
    Whatever else it carries is free. *)
Definition isOptionsObject (h : gmap loc HeapObj) (v : JSValue) : bool :=
  match v with
  | VRef l => match h !! l with
              | Some (HObject own inherited) =>
                  literalField own inherited "getRegistry"
                  && literalField own inherited "use"
                  && literalField own inherited "httpMethod"
              | _ => false
              end
  | _ => false
  end.

(** The three names both versions read from an options object. *)
Definition optionKey (key : string) : bool :=
  String.eqb key "getRegistry" || String.eqb key "use" || String.eqb key "httpMethod".


(** The three rejections of the option fields. *)
Definition badGetRegistry (g : JSValue) : bool :=
  negb (isNil g) && negb (String.eqb (typeof g) "function").
Definition badUse (h : gmap loc HeapObj) (u : JSValue) : bool :=
  negb (isNil u) && negb (isArray h u).
Definition badHttpMethod (m : JSValue) : bool :=
  negb (isNil m) && negb (String.eqb (typeof m) "string").

(** The host function [id] returns whenever it is called. *)
Definition returnsNormally (env : Collaborators) (id : nat) : Prop :=
  forall this args w, exists r, nativeCall env id this args w = Normal r.

(** The number a decimal string such as a Content-Length denotes. *)
Definition decimalValue (s : string) : option Z :=
  option_map Z.of_int (NilZero.int_of_string s).


(** ** The worlds a call goes through *)

(** [const use = []] takes the first free location, a default registry
    the next one. *)
Definition useLoc (w : World) : loc := fresh (dom (heap w)).
Definition withUse (w : World) : World :=
  {| heap := <[useLoc w := HArray []]> (heap w); trace := trace w |}.
Definition registryLoc (w : World) : loc := fresh (dom (heap (withUse w))).
Definition withDefaultRegistry (env : Collaborators) (w : World) : World :=
  {| heap := <[registryLoc w := HRegistry (withDefaultMetrics env (newRegistryState env))]>
               (heap (withUse w));
     trace := trace w ++ [EvNewRegistry (registryLoc w);
                          EvCollectDefaultMetrics (VRef (registryLoc w))] |}.
Definition withItems (l : loc) (items : list JSValue) (w : World) : World :=
  {| heap := <[l := HArray items]> (heap w); trace := trace w |}.

(** After the getRegistry block, and after the use block, for option
    fields [g] and [u]. *)
Definition afterRegistry (env : Collaborators) (g : JSValue) (w : World) : World :=
  if isNil g then withDefaultRegistry env w else withUse w.
Definition afterUse (env : Collaborators) (g u : JSValue) (w : World) : World :=
  if isNil u then afterRegistry env g w
  else withItems (useLoc w) (elementsOf (heap w) u) (afterRegistry env g w).
Definition providerOf (g : JSValue) (w : World) : JSValue :=
  if isNil g then VFunction (AsyncConst (VRef (registryLoc w))) else g.
Definition methodOf (m : JSValue) : string := if isNil m then "get" else String_ m.

(** The last statements of both versions: wrap the provider, build the
    handler, call [server[method](path, use, requestHandler)], return. *)
Definition registerWith (env : Collaborators) (server path use provider : JSValue)
    (method : string) (w : World) : Completion ISetupPromClientResult * World :=
  let handler := VFunction (RequestHandler (asAsync provider)) in
  let (c, w') := callValue env (propOf (heap w) server method) server [path; use; handler] w in
  (match c with
   | Normal _ => Normal {| getRegistry := asAsync provider; requestHandler := handler |}
   | Throw e => Throw e
   end, w').

(** The outcome of [Part000.setupPromClient], by cases on the option
    fields; [Part000_closed] proves it is the outcome. *)
Definition closedPart000 (env : Collaborators) (server path arg3 : JSValue) (w : World)
  : Completion ISetupPromClientResult * World :=
  let o := Part000.optionsOf (heap w) arg3 in
  let g := field o "getRegistry" in
  let u := field o "use" in
  let m := field o "httpMethod" in
  if negb (validServer (heap w) server) then
    (Throw (TypeError "server must be a valid e.GO HTTP server instance"), w)
  else if badGetRegistry g then
    (Throw (TypeError "getRegistry must be of type function"), withUse w)
  else if badUse (heap w) u then
    (Throw (TypeError "use must be of type array"), afterRegistry env g w)
  else if badHttpMethod m then
    (Throw (TypeError "use must be of type array"), afterUse env g u w)
  else registerWith env server path (VRef (useLoc w)) (providerOf g w) (methodOf m)
         (afterUse env g u w).

(** The outcome of [Index.setupPromClient]; [Index_closed] proves it. *)
Definition closedIndex (env : Collaborators) (server path arg3 : JSValue) (w : World)
  : Completion ISetupPromClientResult * World :=
  let h := heap w in
  let g := propOf h arg3 "getRegistry" in
  let u := propOf h arg3 "use" in
  let m := propOf h arg3 "httpMethod" in
  if negb (validServer h server) then
    (Throw (TypeError "server must be a valid e.GO HTTP server instance"), w)
  else if instanceofRegistry h arg3 then
    registerWith env server path (VRef (useLoc w)) (VFunction (AsyncConst arg3)) "get"
      (withUse w)
  else if isArray h arg3 then
    (Throw (TypeError "optionsOrRegistry is an invalid value"),
     withItems (useLoc w) (elementsOf h arg3) (withUse w))
  else if String.eqb (typeof arg3) "string" then
    (Throw (TypeError "optionsOrRegistry is an invalid value"), withUse w)
  else if badUse h u then
    (Throw (TypeError "arg3.use must be of type array"), afterRegistry env g w)
  else if badHttpMethod m then
    (Throw (TypeError "arg3.httpMethod must be of type string"), afterUse env g u w)
  else if negb (String.eqb (typeof (providerOf g w)) "function") then
    (Throw (TypeError "optionsOrRegistry is an invalid value"), afterUse env g u w)
  else registerWith env server path (VRef (useLoc w)) (providerOf g w) (methodOf m)
         (afterUse env g u w).

(** What a successful call returns for a provider, and the world after the
    host function [id] has been called. *)
Definition resultFor (provider : JSValue) : ISetupPromClientResult :=
  {| getRegistry := asAsync provider;
     requestHandler := VFunction (RequestHandler (asAsync provider)) |}.
Definition withCall (id : nat) (this : JSValue) (args : list JSValue) (w : World) : World :=
  {| heap := heap w; trace := trace w ++ [EvCall id this args] |}.

(** Reads of a value agree in two heaps. *)
Definition agree (h h' : gmap loc HeapObj) (v : JSValue) : Prop :=
  match v with VRef l => h' !! l = h !! l | _ => True end.

(** The events a call of a function of the model can log: host calls and
    writes to a response, never a registry creation or a collection. *)
Definition hostEvent (e : Event) : bool :=
  match e with
  | EvCall _ _ _ | EvWriteHead _ _ _ | EvWrite _ _ => true
  | EvNewRegistry _ | EvCollectDefaultMetrics _ => false
  end.

(** The inputs on which a version falls back to a registry of its own:
    index.ts in its options branch, part_000 whenever the options it
    resolves have no [getRegistry]; both on a valid server only. *)
Definition defaultsIndex (h : gmap loc HeapObj) (server arg3 : JSValue) : bool :=
  validServer h server
  && negb (instanceofRegistry h arg3) && negb (isArray h arg3)
  && negb (String.eqb (typeof arg3) "string")
  && isNil (propOf h arg3 "getRegistry").
Definition defaultsPart000 (h : gmap loc HeapObj) (server arg3 : JSValue) : bool :=
  validServer h server && isNil (field (Part000.optionsOf h arg3) "getRegistry").

(** The events of a call up to the registration, for a version that
    defaults or not. *)
Definition eventsBeforeRegistration (defaults : bool) (w : World) : list Event :=
  trace w ++ (if defaults
              then [EvNewRegistry (registryLoc w);
                    EvCollectDefaultMetrics (VRef (registryLoc w))]
              else []).


(** A computation logs host events only. *)
Definition hostOnly {A} (m : M A) : Prop :=
  forall w, exists evs,
    trace (snd (m w)) = (trace w ++ evs)%list /\ forallb hostEvent evs = true.

(** [Sample.world0] with more option objects: 9 asks for a method the
    server does not have; 10 carries a [getRegistry] that is a number, a
    [use] that is a string and an [httpMethod] that is a number; 11
    carries the provider 7 and the method "post"; 12 has "post" as an own
    [httpMethod] that is not enumerable; 13 inherits "post" as
    [httpMethod]. *)
Module Sample2.

Definition world1 : World := {|
  heap := <[9%positive := plainObject (<["httpMethod" := VString "put"]> ∅)]>
          (<[10%positive := plainObject (<["getRegistry" := VNumber 1]>
                                        (<["use" := VString "mw"]>
                                         (<["httpMethod" := VNumber 2]> ∅)))]>
          (<[11%positive := plainObject (<["getRegistry" := VFunction (Native 7)]>
                                        (<["httpMethod" := VString "post"]> ∅))]>
          (<[12%positive :=
               HObject {[ "httpMethod" := {| slotValue := VString "post";
                                             enumerable := false |} ]} ∅]>
          (<[13%positive := HObject ∅ {[ "httpMethod" := VString "post" ]}]>
           (heap Sample.world0)))));
  trace := []
|}.

End Sample2.

(** * Proofs *)

(** ** The monad *)

Lemma bind_eq {A B} (m : M A) (k : A -> M B) w c w' :
  m w = (c, w') ->
  bind m k w = match c with Normal a => k a w' | Throw e => (Throw e, w') end.
Proof. intros H. unfold bind. rewrite H. reflexivity. Qed.

Lemma bind_assoc {A B C} (m : M A) (f : A -> M B) (k : B -> M C) w :
  bind (bind m f) k w = bind m (fun a => bind (f a) k) w.
Proof. unfold bind. destruct (m w) as [[a|e] w']; reflexivity. Qed.

Tactic Notation "run" uconstr(L) := erewrite (bind_eq _ _ _ _ _ L); cbv beta iota.

Lemma run_ret {A} (a : A) w : ret a w = (Normal a, w).
Proof. reflexivity. Qed.
Lemma run_getHeap w : getHeap w = (Normal (heap w), w).
Proof. reflexivity. Qed.
Lemma run_getPropOpt v k w : getPropOpt v k w = (Normal (propOf (heap w) v k), w).
Proof. reflexivity. Qed.
Lemma run_getProp v k w :
  isNil v = false -> getProp v k w = (Normal (propOf (heap w) v k), w).
Proof. intros H. unfold getProp. rewrite H. reflexivity. Qed.
Lemma run_newArray w : newArray w = (Normal (VRef (useLoc w)), withUse w).
Proof. reflexivity. Qed.
Lemma run_isArray v w : Array_isArray v w = (Normal (isArray (heap w) v), w).
Proof. reflexivity. Qed.
Lemma run_instanceOf v w :
  instanceOf_Registry v w = (Normal (instanceofRegistry (heap w) v), w).
Proof. reflexivity. Qed.
Lemma run_spread v w : spread v w = (Normal (elementsOf (heap w) v), w).
Proof. reflexivity. Qed.
Lemma run_push l items w :
  heap w !! l = Some (HArray []) ->
  push (VRef l) items w = (Normal tt, withItems l items w).
Proof. intros H. unfold push, bind, getHeap. simpl. rewrite H. reflexivity. Qed.

(** ** Local object literals *)

Lemma field_singleton_eq k v : field {[ k := v ]} k = v.
Proof. unfold field. by rewrite lookup_singleton_eq. Qed.
Lemma field_singleton_ne k k' v : k ≠ k' -> field {[ k := v ]} k' = VUndefined.
Proof. intros. unfold field. by rewrite lookup_singleton_ne. Qed.
Lemma field_insert_eq o k v : field (<[k := v]> o) k = v.
Proof. unfold field. by rewrite lookup_insert_eq. Qed.
Lemma field_insert_ne o k k' v : k ≠ k' -> field (<[k := v]> o) k' = field o k'.
Proof. intros. unfold field. by rewrite lookup_insert_ne. Qed.
Lemma field_insert_id o k : isNil (field o k) = false -> <[k := field o k]> o = o.
Proof. unfold field. destruct (o !! k) eqn:E; [intros _; by apply insert_id | done]. Qed.
Lemma field_ownProps h v k :
  field (ownProps h v) k = propOf h v k \/ field (ownProps h v) k = VUndefined.
Proof.
  unfold field, ownProps, propOf. destruct v; try (by left).
  destruct (h !! l) as [[own inherited| |]|]; try (by left).
  rewrite lookup_omap. destruct (own !! k) as [slot|]; simpl; [|by right].
  destruct (enumerable slot); [by left | by right].
Qed.

Lemma field_ownProps_literal h l own inherited k :
  h !! l = Some (HObject own inherited) ->
  literalField own inherited k = true ->
  field (ownProps h (VRef l)) k = propOf h (VRef l) k.
Proof.
  intros Hl. unfold field, ownProps, propOf, literalField. rewrite Hl, lookup_omap.
  destruct (own !! k) as [slot|]; simpl.
  - by intros ->.
  - by destruct (inherited !! k).
Qed.

(** ** Fresh locations and reads *)

Lemma fresh_lookup (h : gmap loc HeapObj) : h !! fresh (dom h) = None.
Proof. apply not_elem_of_dom, is_fresh. Qed.

Lemma allocated_ref h l : allocated h (VRef l) = true -> is_Some (h !! l).
Proof. simpl. destruct (h !! l); [eauto | discriminate]. Qed.

Lemma ref_allocated h l : is_Some (h !! l) -> allocated h (VRef l) = true.
Proof. intros [x Hx]. simpl. by rewrite Hx. Qed.

Lemma validServer_notNil h s : validServer h s = true -> isNil s = false.
Proof. by destruct s. Qed.

Lemma validServer_allocated h s : validServer h s = true -> allocated h s = true.
Proof.
  unfold validServer, propOf. destruct s; try discriminate. simpl.
  destruct (h !! l); [done | discriminate].
Qed.

Lemma propOf_notNil h v k : isNil (propOf h v k) = false -> isNil v = false.
Proof. by destruct v. Qed.

Lemma isArray_allocated h v : isArray h v = true -> allocated h v = true.
Proof. destruct v; try done. simpl. by destruct (h !! l). Qed.

Lemma isNil_allocated h v : isNil v = true -> allocated h v = true.
Proof. by destruct v. Qed.

Lemma badUse_false_allocated h u : badUse h u = false -> allocated h u = true.
Proof.
  unfold badUse. destruct (isNil u) eqn:E; [intros _; by apply isNil_allocated|].
  destruct (isArray h u) eqn:E'; [intros _; by apply isArray_allocated | done].
Qed.

Lemma use_ne_registry w : useLoc w ≠ registryLoc w.
Proof.
  intros E. pose proof (fresh_lookup (heap (withUse w))) as F.
  fold (registryLoc w) in F. rewrite <- E in F. simpl in F.
  by rewrite lookup_insert_eq in F.
Qed.

Lemma useLoc_fresh w : heap w !! useLoc w = None.
Proof. apply fresh_lookup. Qed.

Lemma registryLoc_fresh w : heap w !! registryLoc w = None.
Proof.
  pose proof (fresh_lookup (heap (withUse w))) as F. fold (registryLoc w) in F.
  simpl in F. by rewrite lookup_insert_ne in F by apply use_ne_registry.
Qed.

Lemma allocated_ne_use w l : is_Some (heap w !! l) -> useLoc w ≠ l.
Proof. intros [x Hx] E. subst l. by rewrite useLoc_fresh in Hx. Qed.

Lemma allocated_ne_registry w l : is_Some (heap w !! l) -> registryLoc w ≠ l.
Proof. intros [x Hx] E. subst l. by rewrite registryLoc_fresh in Hx. Qed.

Section Agree.
Variables (h h' : gmap loc HeapObj) (v : JSValue).
Hypothesis Hv : agree h h' v.

Lemma instanceofRegistry_agree : instanceofRegistry h' v = instanceofRegistry h v.
Proof. destruct v; try reflexivity. simpl in *. by rewrite Hv. Qed.
Lemma isArray_agree : isArray h' v = isArray h v.
Proof. destruct v; try reflexivity. simpl in *. by rewrite Hv. Qed.
Lemma elementsOf_agree : elementsOf h' v = elementsOf h v.
Proof. destruct v; try reflexivity. simpl in *. by rewrite Hv. Qed.
Lemma ownProps_agree : ownProps h' v = ownProps h v.
Proof. destruct v; try reflexivity. simpl in *. by rewrite Hv. Qed.
Lemma propOf_agree k : propOf h' v k = propOf h v k.
Proof. destruct v; try reflexivity. simpl in *. by rewrite Hv. Qed.
Lemma optionsOf_agree : Part000.optionsOf h' v = Part000.optionsOf h v.
Proof.
  unfold Part000.optionsOf.
  by rewrite instanceofRegistry_agree, isArray_agree, ownProps_agree.
Qed.
End Agree.

Section AgreeWorlds.
Variables (env : Collaborators) (w : World) (v : JSValue).
Hypothesis Hv : allocated (heap w) v = true.

Lemma agree_withUse : agree (heap w) (heap (withUse w)) v.
Proof.
  destruct v; try exact I. simpl. apply allocated_ref in Hv.
  apply lookup_insert_ne. by apply allocated_ne_use.
Qed.
Lemma agree_withDefaultRegistry : agree (heap w) (heap (withDefaultRegistry env w)) v.
Proof.
  destruct v; try exact I. simpl. apply allocated_ref in Hv.
  rewrite lookup_insert_ne by (by apply allocated_ne_registry).
  apply lookup_insert_ne. by apply allocated_ne_use.
Qed.
Lemma agree_withItems items w' :
  agree (heap w) (heap w') v -> agree (heap w) (heap (withItems (useLoc w) items w')) v.
Proof.
  destruct v; try done. simpl. intros <-. apply allocated_ref in Hv.
  apply lookup_insert_ne. by apply allocated_ne_use.
Qed.
Lemma agree_afterRegistry g : agree (heap w) (heap (afterRegistry env g w)) v.
Proof.
  unfold afterRegistry. destruct (isNil g);
    [apply agree_withDefaultRegistry | apply agree_withUse].
Qed.
Lemma agree_afterUse g u : agree (heap w) (heap (afterUse env g u w)) v.
Proof.
  unfold afterUse. destruct (isNil u); [|apply agree_withItems]; apply agree_afterRegistry.
Qed.
End AgreeWorlds.

Lemma lookup_use_afterRegistry env g w :
  heap (afterRegistry env g w) !! useLoc w = Some (HArray []).
Proof.
  unfold afterRegistry. destruct (isNil g); simpl.
  - rewrite lookup_insert_ne by (apply not_eq_sym, use_ne_registry). apply lookup_insert_eq.
  - apply lookup_insert_eq.
Qed.

Lemma lookup_use_afterUse env g u w :
  heap (afterUse env g u w) !! useLoc w = Some (HArray (elementsOf (heap w) u)).
Proof.
  unfold afterUse. destruct (isNil u) eqn:E.
  - rewrite lookup_use_afterRegistry. by destruct u.
  - apply lookup_insert_eq.
Qed.

Lemma trace_afterRegistry env g w :
  trace (afterRegistry env g w)
  = (trace w ++ (if isNil g then [EvNewRegistry (registryLoc w);
                                  EvCollectDefaultMetrics (VRef (registryLoc w))]
                 else []))%list.
Proof. unfold afterRegistry. destruct (isNil g); simpl; [done | by rewrite app_nil_r]. Qed.

Lemma trace_afterUse env g u w : trace (afterUse env g u w) = trace (afterRegistry env g w).
Proof. unfold afterUse. by destruct (isNil u). Qed.

Lemma wellFormedArg_options h arg3 :
  wellFormedArg h arg3 = true ->
  allocated h arg3 = true
  /\ allocated h (propOf h arg3 "use") = true
  /\ allocated h (field (Part000.optionsOf h arg3) "use") = true.
Proof.
  unfold wellFormedArg. intros [Ha Hu]%andb_prop. repeat split; try done.
  unfold Part000.optionsOf.
  destruct (isNil arg3); [done|].
  destruct (instanceofRegistry h arg3); [by rewrite field_singleton_ne|].
  destruct (isArray h arg3); [by rewrite field_singleton_eq|].
  destruct (typeof arg3 =? "object");
    [by destruct (field_ownProps h arg3 "use") as [-> | ->]|].
  destruct (typeof arg3 =? "string"); by rewrite field_singleton_ne.
Qed.

(** ** Blocks of [setupPromClient] *)

Lemma run_default env (w : World) {A} (k : JSValue -> A) :
  (registry <- newRegistry env ;;
   collectDefaultMetrics env registry ;;;
   ret (k registry)) (withUse w)
  = (Normal (k (VRef (registryLoc w))), withDefaultRegistry env w).
Proof.
  unfold bind, newRegistry, collectDefaultMetrics, bind, getHeap, setHeap, emit, ret.
  cbn [heap trace]. fold (registryLoc w).
  rewrite lookup_insert_eq. cbn [heap trace].
  rewrite insert_insert_eq, <- app_assoc. reflexivity.
Qed.

Lemma afterUse_cases env g u w :
  (if isNil u || negb (isArray (heap w) u) then afterRegistry env g w
   else withItems (useLoc w) (elementsOf (heap w) u) (afterRegistry env g w))
  = if badUse (heap w) u then afterRegistry env g w else afterUse env g u w.
Proof.
  unfold badUse, afterUse. destruct (isNil u); [done|]. by destruct (isArray (heap w) u).
Qed.

(** The use block of part_000 (241-249). *)
Lemma run_use_block_Part000 w u w' :
  agree (heap w) (heap w') u ->
  heap w' !! useLoc w = Some (HArray []) ->
  (if negb (isNil u) then
     isArr <- Array_isArray u ;;
     if isArr then items <- spread u ;; push (VRef (useLoc w)) items
     else throw (TypeError "use must be of type array")
   else ret tt) w'
  = (if badUse (heap w) u then Throw (TypeError "use must be of type array")
     else Normal tt,
     if isNil u || negb (isArray (heap w) u) then w'
     else withItems (useLoc w) (elementsOf (heap w) u) w').
Proof.
  intros Hag Hl. unfold badUse.
  destruct (isNil u); cbn [negb andb orb]; [reflexivity|].
  run (run_isArray _ _). rewrite (isArray_agree _ _ _ Hag).
  destruct (isArray (heap w) u); cbn [negb]; [|reflexivity].
  run (run_spread _ _). rewrite (elementsOf_agree _ _ _ Hag).
  by apply run_push.
Qed.

(** The use block of index.ts (146-153). *)
Lemma run_use_block_Index w arg3 w' :
  let u := propOf (heap w) arg3 "use" in
  agree (heap w) (heap w') arg3 ->
  agree (heap w) (heap w') u ->
  heap w' !! useLoc w = Some (HArray []) ->
  (if negb (isNil u) then
     u1 <- getPropOpt arg3 "use" ;;
     isArr1 <- Array_isArray u1 ;;
     if negb isArr1 then throw (TypeError "arg3.use must be of type array")
     else
       u2 <- getProp arg3 "use" ;;
       items <- spread u2 ;;
       push (VRef (useLoc w)) items
   else ret tt) w'
  = (if badUse (heap w) u then Throw (TypeError "arg3.use must be of type array")
     else Normal tt,
     if isNil u || negb (isArray (heap w) u) then w'
     else withItems (useLoc w) (elementsOf (heap w) u) w').
Proof.
  intros u Hag Hagu Hl. unfold badUse.
  destruct (isNil u) eqn:Hn; cbn [negb andb orb]; [reflexivity|].
  run (run_getPropOpt _ _ _). rewrite (propOf_agree _ _ _ Hag). fold u.
  run (run_isArray _ _). rewrite (isArray_agree _ _ _ Hagu).
  destruct (isArray (heap w) u); cbn [negb]; [|reflexivity].
  run (run_getProp _ _ _ (propOf_notNil _ _ _ Hn)).
  rewrite (propOf_agree _ _ _ Hag). fold u.
  run (run_spread _ _). rewrite (elementsOf_agree _ _ _ Hagu).
  by apply run_push.
Qed.

Lemma run_register env server path use provider method w :
  (callValue env (propOf (heap w) server method) server
     [path; use; VFunction (RequestHandler (asAsync provider))] ;;;
   ret {| getRegistry := asAsync provider;
          requestHandler := VFunction (RequestHandler (asAsync provider)) |}) w
  = registerWith env server path use provider method w.
Proof.
  unfold registerWith, bind, ret.
  destruct (callValue _ _ _ _ _) as [[?|?] ?]; reflexivity.
Qed.

(** ** The outcome of a call, in closed form *)

Lemma Part000_closed env server path arg3 w :
  allocated (heap w) arg3 = true ->
  allocated (heap w) (field (Part000.optionsOf (heap w) arg3) "use") = true ->
  Part000.setupPromClient env server path arg3 w = closedPart000 env server path arg3 w.
Proof.
  intros Ha Hu. unfold closedPart000, Part000.setupPromClient.
  run (run_getPropOpt _ _ _).
  fold (validServer (heap w) server).
  destruct (validServer (heap w) server) eqn:Hs; [|reflexivity]. cbn [negb].
  assert (Hsn := validServer_notNil _ _ Hs).
  run (run_newArray _). run (run_getHeap _).
  rewrite (optionsOf_agree _ _ _ (agree_withUse w arg3 Ha)).
  set (o := Part000.optionsOf (heap w) arg3) in *.
  set (g := field o "getRegistry"). set (u := field o "use") in *.
  set (m := field o "httpMethod").
  assert (Hw2 : forall (k : gmap string JSValue -> M ISetupPromClientResult),
    bind (if isNil g then
            registry <- newRegistry env ;;
            collectDefaultMetrics env registry ;;;
            ret (<[ "getRegistry" := VFunction (AsyncConst registry) ]> o)
          else if negb (String.eqb (typeof g) "function") then
            throw (TypeError "getRegistry must be of type function")
          else ret o) k (withUse w)
    = if badGetRegistry g then
        (Throw (TypeError "getRegistry must be of type function"), withUse w)
      else k (<[ "getRegistry" := providerOf g w ]> o) (afterRegistry env g w)).
  { intros k. unfold providerOf, afterRegistry, badGetRegistry.
    destruct (isNil g) eqn:Hg; cbn [negb andb].
    - run (run_default env w _). reflexivity.
    - destruct (typeof g =? "function") eqn:Hf; cbn [negb]; [|reflexivity].
      run (run_ret _ _). unfold g. by rewrite field_insert_id. }
  rewrite Hw2. clear Hw2.
  destruct (badGetRegistry g) eqn:Hgbad; [reflexivity|].
  rewrite !field_insert_ne by done. rewrite field_insert_eq. fold u m.
  erewrite bind_eq;
    [|apply run_use_block_Part000;
      [by apply agree_afterRegistry | apply lookup_use_afterRegistry]].
  rewrite afterUse_cases.
  destruct (badUse (heap w) u) eqn:Hubad; [reflexivity|].
  unfold methodOf, badHttpMethod.
  destruct (isNil m) eqn:Hm; cbn [negb andb].
  - run (run_ret _ _). run (run_getProp _ _ _ Hsn). apply run_register.
  - destruct (typeof m =? "string") eqn:Ht; cbn [negb]; [|reflexivity].
    run (run_ret _ _). run (run_getProp _ _ _ Hsn). apply run_register.
Qed.

Lemma Index_closed env server path arg3 w :
  allocated (heap w) arg3 = true ->
  allocated (heap w) (propOf (heap w) arg3 "use") = true ->
  Index.setupPromClient env server path arg3 w = closedIndex env server path arg3 w.
Proof.
  intros Ha Hu. unfold closedIndex, Index.setupPromClient.
  run (run_getPropOpt _ _ _).
  fold (validServer (heap w) server).
  destruct (validServer (heap w) server) eqn:Hs; [|reflexivity]. cbn [negb].
  assert (Hsn := validServer_notNil _ _ Hs).
  run (run_newArray _). run (run_instanceOf _ _).
  rewrite (instanceofRegistry_agree _ _ _ (agree_withUse w arg3 Ha)).
  destruct (instanceofRegistry (heap w) arg3) eqn:Hreg.
  { run (run_ret _ _). cbn [typeof String.eqb Ascii.eqb Bool.eqb negb].
    run (run_getProp _ _ _ Hsn). apply run_register. }
  rewrite bind_assoc. run (run_isArray _ _).
  rewrite (isArray_agree _ _ _ (agree_withUse w arg3 Ha)).
  destruct (isArray (heap w) arg3) eqn:Harr.
  { rewrite bind_assoc. run (run_spread _ _).
    rewrite (elementsOf_agree _ _ _ (agree_withUse w arg3 Ha)).
    rewrite bind_assoc. erewrite bind_eq by (apply run_push; apply lookup_insert_eq).
    cbv beta iota. run (run_ret _ _). reflexivity. }
  destruct (typeof arg3 =? "string") eqn:Hstr.
  { run (run_ret _ _). reflexivity. }
  set (g := propOf (heap w) arg3 "getRegistry").
  set (u := propOf (heap w) arg3 "use") in *.
  set (m := propOf (heap w) arg3 "httpMethod").
  rewrite bind_assoc. run (run_getPropOpt _ _ _).
  rewrite (propOf_agree _ _ _ (agree_withUse w arg3 Ha)). fold g.
  rewrite bind_assoc.
  assert (Hw2 : forall (k : JSValue -> M ISetupPromClientResult),
    bind (if isNil g then
            registry <- newRegistry env ;;
            collectDefaultMetrics env registry ;;;
            ret (VFunction (AsyncConst registry))
          else getProp arg3 "getRegistry") k (withUse w)
    = k (providerOf g w) (afterRegistry env g w)).
  { intros k. unfold providerOf, afterRegistry. destruct (isNil g) eqn:Hg.
    - run (run_default env w _). reflexivity.
    - run (run_getProp _ _ _ (propOf_notNil _ _ _ Hg)).
      by rewrite (propOf_agree _ _ _ (agree_withUse w arg3 Ha)). }
  rewrite Hw2. clear Hw2.
  assert (Hag2 := agree_afterRegistry env w arg3 Ha g).
  rewrite bind_assoc. run (run_getPropOpt _ _ _).
  rewrite (propOf_agree _ _ _ Hag2). fold u.
  rewrite bind_assoc.
  erewrite bind_eq;
    [|apply run_use_block_Index;
      [done | by apply agree_afterRegistry | apply lookup_use_afterRegistry]].
  fold u. rewrite afterUse_cases.
  destruct (badUse (heap w) u) eqn:Hubad; [reflexivity|].
  assert (Hag3 := agree_afterUse env w arg3 Ha g u).
  rewrite bind_assoc. run (run_getPropOpt _ _ _).
  rewrite (propOf_agree _ _ _ Hag3). fold m.
  rewrite bind_assoc. unfold methodOf, badHttpMethod.
  destruct (isNil m) eqn:Hm; cbn [negb andb].
  - run (run_ret _ _). run (run_ret _ _).
    destruct (typeof (providerOf g w) =? "function"); cbn [negb]; [|reflexivity].
    run (run_getProp _ _ _ Hsn). apply run_register.
  - rewrite bind_assoc. run (run_getProp _ _ _ (propOf_notNil _ _ _ Hm)).
    rewrite (propOf_agree _ _ _ Hag3). fold m.
    destruct (typeof m =? "string") eqn:Ht; cbn [negb]; [|reflexivity].
    run (run_getProp _ _ _ (propOf_notNil _ _ _ Hm)).
    rewrite (propOf_agree _ _ _ Hag3). fold m.
    run (run_ret _ _).
    destruct (typeof (providerOf g w) =? "function"); cbn [negb]; [|reflexivity].
    run (run_getProp _ _ _ Hsn). apply run_register.
Qed.

(** ** Calls of functions and the heap *)

Lemma callValue_asAsync env func this args w :
  callValue env (asAsync func) this args w
  = (Normal (settle (fst (callValue env func VUndefined args w))),
     snd (callValue env func VUndefined args w)).
Proof.
  simpl. unfold async. by destruct (callValue env func VUndefined args w).
Qed.


Lemma decimalValue_String_ z : decimalValue (String_ (VNumber z)) = Some z.
Proof.
  unfold decimalValue, String_.
  rewrite NilZero.isi.
  - simpl. by rewrite DecimalZ.of_to.
  - intros E. pose proof (DecimalZ.to_of (Z.to_int z)) as T.
    rewrite DecimalZ.of_to, E in T. discriminate.
  - intros E. pose proof (DecimalZ.to_of (Z.to_int z)) as T.
    rewrite DecimalZ.of_to, E in T. discriminate.
Qed.

Lemma registerWith_native env server path use provider method w id :
  propOf (heap w) server method = VFunction (Native id) ->
  returnsNormally env id ->
  registerWith env server path use provider method w
  = (Normal (resultFor provider),
     withCall id server [path; use; requestHandler (resultFor provider)] w).
Proof.
  intros Hp Hn. unfold registerWith. rewrite Hp. simpl.
  unfold callNative, bind, emit.
  destruct (Hn server [path; use; VFunction (RequestHandler (asAsync provider))]
              (withCall id server
                 [path; use; VFunction (RequestHandler (asAsync provider))] w)) as [r Hr].
  unfold withCall in Hr. simpl in Hr. by rewrite Hr.
Qed.

Lemma optionsOf_fields h arg3 k :
  isNil arg3 || isOptionsObject h arg3 = true ->
  optionKey k = true ->
  field (Part000.optionsOf h arg3) k = propOf h arg3 k.
Proof.
  unfold Part000.optionsOf. destruct (isNil arg3) eqn:E.
  - intros _ _. by destruct arg3.
  - simpl. intros Ho Hk. destruct arg3; try done.
    unfold isOptionsObject, instanceofRegistry, isArray in *.
    destruct (h !! l) as [[own inherited| |]|] eqn:Hl; try done.
    cbn [typeof String.eqb Ascii.eqb Bool.eqb].
    apply andb_prop in Ho as [[Hg Hu]%andb_prop Hm].
    apply (field_ownProps_literal h l own inherited k Hl).
    unfold optionKey in Hk.
    destruct (String.eqb_spec k "getRegistry") as [->|_]; [done|].
    destruct (String.eqb_spec k "use") as [->|_]; [done|].
    destruct (String.eqb_spec k "httpMethod") as [->|_]; done.
Qed.

Lemma isOptionsObject_shape h arg3 :
  isNil arg3 || isOptionsObject h arg3 = true ->
  instanceofRegistry h arg3 = false /\ isArray h arg3 = false
  /\ (typeof arg3 =? "string") = false /\ allocated h arg3 = true.
Proof.
  destruct arg3; try done. simpl. by destruct (h !! l) as [[]|].
Qed.

(** A call that passes every check, for the option fields [g], [u], [m]. *)
Lemma Part000_passes env server path arg3 w id :
  validServer (heap w) server = true ->
  wellFormedArg (heap w) arg3 = true ->
  badGetRegistry (field (Part000.optionsOf (heap w) arg3) "getRegistry") = false ->
  badUse (heap w) (field (Part000.optionsOf (heap w) arg3) "use") = false ->
  badHttpMethod (field (Part000.optionsOf (heap w) arg3) "httpMethod") = false ->
  propOf (heap w) server
    (methodOf (field (Part000.optionsOf (heap w) arg3) "httpMethod")) = VFunction (Native id) ->
  returnsNormally env id ->
  Part000.setupPromClient env server path arg3 w
  = (Normal (resultFor (providerOf (field (Part000.optionsOf (heap w) arg3) "getRegistry") w)),
     withCall id server
       [path; VRef (useLoc w);
        requestHandler
          (resultFor (providerOf (field (Part000.optionsOf (heap w) arg3) "getRegistry") w))]
       (afterUse env (field (Part000.optionsOf (heap w) arg3) "getRegistry")
          (field (Part000.optionsOf (heap w) arg3) "use") w)).
Proof.
  intros Hs Hwf Hg Hu Hm Hverb Hn.
  destruct (wellFormedArg_options _ _ Hwf) as (Ha & _ & Hau).
  rewrite Part000_closed by done. unfold closedPart000.
  rewrite Hs, Hg, Hu, Hm. cbn [negb].
  apply registerWith_native; [|done].
  rewrite (propOf_agree (heap w)); [done|].
  apply agree_afterUse. by apply validServer_allocated.
Qed.

Lemma Index_passes env server path arg3 w id :
  validServer (heap w) server = true ->
  isNil arg3 || isOptionsObject (heap w) arg3 = true ->
  badGetRegistry (propOf (heap w) arg3 "getRegistry") = false ->
  badUse (heap w) (propOf (heap w) arg3 "use") = false ->
  badHttpMethod (propOf (heap w) arg3 "httpMethod") = false ->
  propOf (heap w) server (methodOf (propOf (heap w) arg3 "httpMethod"))
    = VFunction (Native id) ->
  returnsNormally env id ->
  Index.setupPromClient env server path arg3 w
  = (Normal (resultFor (providerOf (propOf (heap w) arg3 "getRegistry") w)),
     withCall id server
       [path; VRef (useLoc w);
        requestHandler (resultFor (providerOf (propOf (heap w) arg3 "getRegistry") w))]
       (afterUse env (propOf (heap w) arg3 "getRegistry") (propOf (heap w) arg3 "use") w)).
Proof.
  intros Hs Ho Hg Hu Hm Hverb Hn.
  destruct (isOptionsObject_shape _ _ Ho) as (Hr & Harr & Hstr & Ha).
  rewrite Index_closed; [|done|by apply badUse_false_allocated].
  unfold closedIndex. rewrite Hs, Hr, Harr, Hstr, Hu, Hm. cbn [negb].
  replace (typeof (providerOf (propOf (heap w) arg3 "getRegistry") w) =? "function")
    with true.
  - cbn [negb]. apply registerWith_native; [|done].
    rewrite (propOf_agree (heap w)); [done|].
    apply agree_afterUse. by apply validServer_allocated.
  - unfold providerOf, badGetRegistry in *.
    destruct (isNil (propOf (heap w) arg3 "getRegistry")); [done|].
    by destruct (typeof (propOf (heap w) arg3 "getRegistry") =? "function").
Qed.

(** ** What a call of a function can do *)

Lemma async_heap (body : M JSValue) w :
  heap (snd (body w)) = heap w -> heap (snd (async body w)) = heap w.
Proof. unfold async. by destruct (body w). Qed.

Lemma bind_heap {A B} (m : M A) (k : A -> M B) w :
  heap (snd (m w)) = heap w ->
  (forall a w1, heap (snd (k a w1)) = heap w1) ->
  heap (snd (bind m k w)) = heap w.
Proof.
  intros Hm Hk. unfold bind. destruct (m w) as [[a|e] w1]; simpl in *; [|done].
  by rewrite Hk.
Qed.

Lemma await_heap v w : heap (snd (await v w)) = heap w.
Proof. destruct v; try reflexivity. by destruct st. Qed.

Lemma Registry_metrics_heap r w : heap (snd (Registry_metrics r w)) = heap w.
Proof.
  unfold Registry_metrics, bind, getHeap. simpl.
  destruct r; try reflexivity. by destruct (heap w !! l) as [[]|].
Qed.

Lemma Registry_contentType_heap r w :
  heap (snd (Registry_contentType r w)) = heap w.
Proof.
  unfold Registry_contentType, bind, getHeap. simpl.
  destruct r; try reflexivity. by destruct (heap w !! l) as [[]|].
Qed.

Lemma requestHandlerBody_heap (call : M JSValue) response w :
  heap (snd (call w)) = heap w ->
  heap (snd (requestHandlerBody call response w)) = heap w.
Proof.
  intros Hc. unfold requestHandlerBody.
  apply bind_heap; [done|]. intros p w1.
  apply bind_heap; [apply await_heap|]. intros registry w2.
  apply bind_heap; [apply Registry_metrics_heap|]. intros q w3.
  apply bind_heap; [apply await_heap|]. intros data w4.
  apply bind_heap; [apply Registry_contentType_heap|]. intros ct w5.
  reflexivity.
Qed.

(** No function of the model writes to the heap. *)
Lemma callValue_heap env f :
  forall this args w, heap (snd (callValue env f this args w)) = heap w.
Proof.
  induction f using JSValue_mut
    with (P0 := fun b => forall this args w,
                  heap (snd (callBody env b this args w)) = heap w);
    intros this args w; try reflexivity.
  - apply IHf.
  - apply async_heap, IHf.
  - cbn [callBody]. apply async_heap, requestHandlerBody_heap, IHf.
Qed.

Lemma registerWith_heap env server path use provider method w :
  heap (snd (registerWith env server path use provider method w)) = heap w.
Proof.
  unfold registerWith.
  pose proof (callValue_heap env (propOf (heap w) server method) server
                [path; use; VFunction (RequestHandler (asAsync provider))] w) as H.
  by destruct (callValue _ _ _ _ _).
Qed.

(** Both versions leave every object of the caller as it was. *)
Lemma Part000_frame env server path arg3 w l :
  wellFormedArg (heap w) arg3 = true ->
  is_Some (heap w !! l) ->
  heap (snd (Part000.setupPromClient env server path arg3 w)) !! l = heap w !! l.
Proof.
  intros Hwf Hl. destruct (wellFormedArg_options _ _ Hwf) as (Ha & _ & Hau).
  apply ref_allocated in Hl.
  rewrite Part000_closed by done. unfold closedPart000.
  repeat match goal with |- context [if ?b then _ else _] => destruct b end;
    rewrite ?registerWith_heap; cbn [snd]; try reflexivity.
  - by apply (agree_withUse w (VRef l)).
  - by apply (agree_afterRegistry env w (VRef l)).
  - by apply (agree_afterUse env w (VRef l)).
  - by apply (agree_afterUse env w (VRef l)).
Qed.

Lemma Index_frame env server path arg3 w l :
  wellFormedArg (heap w) arg3 = true ->
  is_Some (heap w !! l) ->
  heap (snd (Index.setupPromClient env server path arg3 w)) !! l = heap w !! l.
Proof.
  intros Hwf Hl. destruct (wellFormedArg_options _ _ Hwf) as (Ha & Hu & _).
  apply ref_allocated in Hl.
  rewrite Index_closed by done. unfold closedIndex.
  repeat match goal with |- context [if ?b then _ else _] => destruct b end;
    rewrite ?registerWith_heap; cbn [snd]; try reflexivity.
  - by apply (agree_withUse w (VRef l)).
  - apply (agree_withItems w (VRef l)); [done|]. by apply agree_withUse.
  - by apply (agree_withUse w (VRef l)).
  - by apply (agree_afterRegistry env w (VRef l)).
  - by apply (agree_afterUse env w (VRef l)).
  - by apply (agree_afterUse env w (VRef l)).
  - by apply (agree_afterUse env w (VRef l)).
Qed.

(** * The claims *)

(** C1. Invoked with a response, the request handler calls the wrapped
    registry provider; when that settles to a registry whose [metrics()]
    yields a body, the handler writes status 200 with Content-Type the
    registry's content type and Content-Length the decimal rendering of the
    body's length, then writes the body unchanged, and does nothing else.
    This is so for every registry state, the empty body included. *)
Theorem requestHandler_serves_snapshot env provider this request response rest
    w c w1 l st body :
  callValue env provider VUndefined [] w = (c, w1) ->
  settle c = VPromise Fulfilled (VRef l) ->
  heap w1 !! l = Some (HRegistry st) ->
  metrics st = inl body ->
  callValue env (VFunction (RequestHandler (asAsync provider))) this
    (request :: response :: rest) w
  = (Normal (VPromise Fulfilled VUndefined),
     {| heap := heap w1;
        trace := trace w1 ++
          [EvWriteHead response 200
             [("Content-Type", VString (contentType st));
              ("Content-Length", VString (String_ (lengthOf (VString body))))];
           EvWrite response (VString body)] |})
  /\ decimalValue (String_ (lengthOf (VString body))) = Some (Z.of_nat (String.length body)).
Proof.
  intros Hcall Hsettle Hl Hbody. split; [|apply decimalValue_String_].
  cbn [callValue callBody nth]. unfold async, requestHandlerBody.
  erewrite bind_eq by (rewrite callValue_asAsync, Hcall; reflexivity).
  cbn [fst snd]. rewrite Hsettle. cbn [await].
  run (run_ret _ _).
  unfold Registry_metrics. rewrite bind_assoc. run (run_getHeap _). rewrite Hl, Hbody.
  run (run_ret _ _). cbn [await]. run (run_ret _ _).
  unfold Registry_contentType. rewrite bind_assoc. run (run_getHeap _). rewrite Hl.
  run (run_ret _ _).
  unfold bind, emit, ret. cbn [heap trace settle].
  by rewrite <- app_assoc.
Qed.

Lemma requestHandler_serves_snapshot_witness :
  callValue Sample.env (VFunction (RequestHandler (asAsync (VFunction (Native 8)))))
    VUndefined [VString "request"; VString "response"] Sample.world0
  = (Normal (VPromise Fulfilled VUndefined),
     {| heap := heap Sample.world0;
        trace := [EvCall 8 VUndefined [];
                  EvWriteHead (VString "response") 200
                    [("Content-Type", VString "text/plain; version=0.0.4; charset=utf-8");
                     ("Content-Length", VString "4")];
                  EvWrite (VString "response") (VString "up 1")] |})
  /\ decimalValue "4" = Some 4%Z.
Proof.
  apply (requestHandler_serves_snapshot Sample.env (VFunction (Native 8)) VUndefined
           (VString "request") (VString "response") [] Sample.world0
           (Normal (VPromise Fulfilled (VRef 2)))
           {| heap := heap Sample.world0; trace := [EvCall 8 VUndefined []] |}
           2%positive Sample.callerRegistry "up 1"); reflexivity.
Defined.

(** The handler on a registry as prom-client creates it, with nothing
    registered: an empty body, of length 0. *)
Example requestHandler_empty_registry :
  callValue Sample.env
    (requestHandler (resultFor (VFunction (AsyncConst (VRef 1)))))
    VUndefined [VString "request"; VString "response"]
    {| heap := {[ 1%positive := HRegistry (newRegistryState Sample.env) ]}; trace := [] |}
  = (Normal (VPromise Fulfilled VUndefined),
     {| heap := {[ 1%positive := HRegistry (newRegistryState Sample.env) ]};
        trace := [EvWriteHead (VString "response") 200
                    [("Content-Type", VString "text/plain; version=0.0.4; charset=utf-8");
                     ("Content-Length", VString "0")];
                  EvWrite (VString "response") (VString "")] |}).
Proof. vm_compute. reflexivity. Qed.

(** C2. When [server?.isEgoHttpServer] is not [true], both versions throw
    the server type error and leave the world as it was: nothing is
    allocated, nothing is logged, so no registry is created, no default
    metrics are collected and nothing is registered. *)
Theorem setupPromClient_rejects_invalid_server env server path arg3 w :
  validServer (heap w) server = false ->
  Index.setupPromClient env server path arg3 w
  = (Throw (TypeError "server must be a valid e.GO HTTP server instance"), w)
  /\ Part000.setupPromClient env server path arg3 w
  = (Throw (TypeError "server must be a valid e.GO HTTP server instance"), w).
Proof.
  intros H. unfold validServer in H.
  split; [unfold Index.setupPromClient | unfold Part000.setupPromClient];
    run (run_getPropOpt _ _ _); by rewrite H.
Qed.

Lemma setupPromClient_rejects_invalid_server_witness :
  Index.setupPromClient Sample.env (VRef 6) Sample.path VUndefined Sample.world0
  = (Throw (TypeError "server must be a valid e.GO HTTP server instance"), Sample.world0)
  /\ Part000.setupPromClient Sample.env (VRef 6) Sample.path VUndefined Sample.world0
  = (Throw (TypeError "server must be a valid e.GO HTTP server instance"), Sample.world0).
Proof.
  apply (setupPromClient_rejects_invalid_server Sample.env (VRef 6) Sample.path
           VUndefined Sample.world0).
  reflexivity.
Defined.

Lemma returnsNormally_sample_get : returnsNormally Sample.env 0.
Proof. intros this args w. by exists VUndefined. Qed.

Lemma returnsNormally_sample_post : returnsNormally Sample.env 1.
Proof. intros this args w. by exists VUndefined. Qed.

Lemma optionsOf_registry h arg3 :
  instanceofRegistry h arg3 = true ->
  Part000.optionsOf h arg3 = {[ "getRegistry" := VFunction (AsyncConst arg3) ]}.
Proof. intros H. unfold Part000.optionsOf. rewrite H. by destruct arg3. Qed.

Lemma instanceofRegistry_shape h arg3 :
  instanceofRegistry h arg3 = true ->
  isArray h arg3 = false /\ propOf h arg3 "use" = VUndefined
  /\ (exists l, arg3 = VRef l) /\ allocated h arg3 = true.
Proof.
  destruct arg3; try done. simpl. destruct (h !! l) as [[]|]; try done. eauto.
Qed.

(** C3. With a valid server and a third argument that is absent, or an
    options object without [getRegistry] (its [use] absent or an array, its
    [httpMethod] absent or a string; the server's method a host function
    that returns), both versions create one registry at a location that was
    free, collect the default metrics into it once, register, and return a
    [getRegistry] whose every call yields a promise fulfilled with that
    registry, leaving the world as it is. *)
Theorem default_registry_created_once env server path arg3 w id :
  validServer (heap w) server = true ->
  isNil arg3 || isOptionsObject (heap w) arg3 = true ->
  isNil (propOf (heap w) arg3 "getRegistry") = true ->
  badUse (heap w) (propOf (heap w) arg3 "use") = false ->
  badHttpMethod (propOf (heap w) arg3 "httpMethod") = false ->
  propOf (heap w) server (methodOf (propOf (heap w) arg3 "httpMethod"))
    = VFunction (Native id) ->
  returnsNormally env id ->
  exists w',
    Index.setupPromClient env server path arg3 w
    = (Normal (resultFor (VFunction (AsyncConst (VRef (registryLoc w))))), w')
    /\ Part000.setupPromClient env server path arg3 w
    = (Normal (resultFor (VFunction (AsyncConst (VRef (registryLoc w))))), w')
    /\ heap w !! registryLoc w = None
    /\ heap w' !! registryLoc w
       = Some (HRegistry (withDefaultMetrics env (newRegistryState env)))
    /\ trace w'
       = (trace w ++
          [EvNewRegistry (registryLoc w);
           EvCollectDefaultMetrics (VRef (registryLoc w));
           EvCall id server
             [path; VRef (useLoc w);
              requestHandler (resultFor (VFunction (AsyncConst (VRef (registryLoc w)))))]])%list
    /\ forall this args w2,
         callValue env (getRegistry (resultFor (VFunction (AsyncConst (VRef (registryLoc w))))))
           this args w2
         = (Normal (VPromise Fulfilled (VRef (registryLoc w))), w2).
Proof.
  intros Hs Ho Hg Hu Hm Hverb Hn.
  destruct (isOptionsObject_shape _ _ Ho) as (_ & _ & _ & Ha).
  assert (Hbg : badGetRegistry (propOf (heap w) arg3 "getRegistry") = false)
    by (unfold badGetRegistry; by rewrite Hg).
  assert (Hwf : wellFormedArg (heap w) arg3 = true)
    by (unfold wellFormedArg; by rewrite Ha, (badUse_false_allocated _ _ Hu)).
  pose proof (Index_passes env server path arg3 w id Hs Ho Hbg Hu Hm Hverb Hn) as HI.
  pose proof (Part000_passes env server path arg3 w id Hs Hwf) as HP.
  rewrite !optionsOf_fields in HP by done. specialize (HP Hbg Hu Hm Hverb Hn).
  unfold providerOf in HI, HP. rewrite Hg in HI, HP.
  eexists. split; [exact HI|]. split; [exact HP|].
  split; [apply registryLoc_fresh|].
  split; [|split].
  - cbn [withCall heap]. unfold afterUse, afterRegistry. rewrite Hg.
    destruct (isNil (propOf (heap w) arg3 "use")); cbn [withItems heap].
    + apply lookup_insert_eq.
    + rewrite lookup_insert_ne by apply use_ne_registry. apply lookup_insert_eq.
  - cbn [withCall trace]. rewrite trace_afterUse, trace_afterRegistry, Hg.
    by rewrite <- app_assoc.
  - intros this args w2. reflexivity.
Qed.

Lemma default_registry_created_once_witness :
  exists w',
    Index.setupPromClient Sample.env Sample.server Sample.path (VRef 4) Sample.world0
    = (Normal (resultFor (VFunction (AsyncConst (VRef 8)))), w')
    /\ Part000.setupPromClient Sample.env Sample.server Sample.path (VRef 4) Sample.world0
    = (Normal (resultFor (VFunction (AsyncConst (VRef 8)))), w')
    /\ heap Sample.world0 !! 8%positive = None
    /\ heap w' !! 8%positive
       = Some (HRegistry (withDefaultMetrics Sample.env (newRegistryState Sample.env)))
    /\ trace w'
       = [EvNewRegistry 8; EvCollectDefaultMetrics (VRef 8);
          EvCall 1 Sample.server
            [Sample.path; VRef 7;
             requestHandler (resultFor (VFunction (AsyncConst (VRef 8))))]]
    /\ forall this args w2,
         callValue Sample.env (getRegistry (resultFor (VFunction (AsyncConst (VRef 8)))))
           this args w2
         = (Normal (VPromise Fulfilled (VRef 8)), w2).
Proof.
  apply (default_registry_created_once Sample.env Sample.server Sample.path (VRef 4)
           Sample.world0 1);
    [reflexivity | reflexivity | reflexivity | reflexivity | reflexivity | reflexivity
    | exact returnsNormally_sample_post].
Defined.

(** C4. With a valid server whose [get] is a host function that returns,
    and a Registry instance as third argument, both versions register and
    return a [getRegistry] whose every call yields a promise fulfilled with
    that very instance; the only event of the call is the registration, so
    no registry is created and no default metrics are collected. *)
Theorem explicit_registry_is_returned env server path arg3 w id :
  validServer (heap w) server = true ->
  instanceofRegistry (heap w) arg3 = true ->
  propOf (heap w) server "get" = VFunction (Native id) ->
  returnsNormally env id ->
  exists w',
    Index.setupPromClient env server path arg3 w
    = (Normal (resultFor (VFunction (AsyncConst arg3))), w')
    /\ Part000.setupPromClient env server path arg3 w
    = (Normal (resultFor (VFunction (AsyncConst arg3))), w')
    /\ trace w'
       = (trace w ++
          [EvCall id server
             [path; VRef (useLoc w);
              requestHandler (resultFor (VFunction (AsyncConst arg3)))]])%list
    /\ heap w' = <[useLoc w := HArray []]> (heap w)
    /\ forall this args w2,
         callValue env (getRegistry (resultFor (VFunction (AsyncConst arg3)))) this args w2
         = (Normal (VPromise Fulfilled arg3), w2).
Proof.
  intros Hs Hr Hverb Hn.
  destruct (instanceofRegistry_shape _ _ Hr) as (Harr & Hu & [l ->] & Ha).
  exists (withCall id server
            [path; VRef (useLoc w);
             requestHandler (resultFor (VFunction (AsyncConst (VRef l))))] (withUse w)).
  split; [|split; [|split; [|split]]]; try reflexivity.
  - rewrite Index_closed by (by rewrite ?Hu). unfold closedIndex.
    rewrite Hs, Hr. cbn [negb]. apply registerWith_native; [|done].
    rewrite (propOf_agree (heap w)); [done|].
    apply agree_withUse. by apply validServer_allocated.
  - assert (Hwf : wellFormedArg (heap w) (VRef l) = true)
      by (unfold wellFormedArg; by rewrite Ha, Hu).
    pose proof (Part000_passes env server path (VRef l) w id Hs Hwf) as HP.
    rewrite optionsOf_registry in HP by done.
    rewrite field_singleton_eq, !field_singleton_ne in HP by done.
    apply HP; done.
Qed.

Lemma explicit_registry_is_returned_witness :
  exists w',
    Index.setupPromClient Sample.env Sample.server Sample.path (VRef 2) Sample.world0
    = (Normal (resultFor (VFunction (AsyncConst (VRef 2)))), w')
    /\ Part000.setupPromClient Sample.env Sample.server Sample.path (VRef 2) Sample.world0
    = (Normal (resultFor (VFunction (AsyncConst (VRef 2)))), w')
    /\ trace w'
       = [EvCall 0 Sample.server
            [Sample.path; VRef 7;
             requestHandler (resultFor (VFunction (AsyncConst (VRef 2))))]]
    /\ heap w' = <[7%positive := HArray []]> (heap Sample.world0)
    /\ forall this args w2,
         callValue Sample.env (getRegistry (resultFor (VFunction (AsyncConst (VRef 2)))))
           this args w2
         = (Normal (VPromise Fulfilled (VRef 2)), w2).
Proof.
  apply (explicit_registry_is_returned Sample.env Sample.server Sample.path (VRef 2)
           Sample.world0 0);
    [reflexivity | reflexivity | reflexivity | exact returnsNormally_sample_get].
Defined.

(** With a string as third argument part_000 registers under that method,
    with an empty middleware array and the default registry. *)
Lemma Part000_string_method env server path s w id :
  validServer (heap w) server = true ->
  propOf (heap w) server s = VFunction (Native id) ->
  returnsNormally env id ->
  Part000.setupPromClient env server path (VString s) w
  = (Normal (resultFor (VFunction (AsyncConst (VRef (registryLoc w))))),
     withCall id server
       [path; VRef (useLoc w);
        requestHandler (resultFor (VFunction (AsyncConst (VRef (registryLoc w)))))]
       (withDefaultRegistry env w))
  /\ heap (withDefaultRegistry env w) !! useLoc w = Some (HArray []).
Proof.
  intros Hs Hverb Hn. split.
  - by apply (Part000_passes env server path (VString s) w id).
  - apply (lookup_use_afterRegistry env VUndefined w).
Qed.

(** With an array as third argument part_000 registers under "get", with a
    new array holding the elements of the caller's array, in order. *)
Lemma Part000_array_middlewares env server path arg3 w id :
  validServer (heap w) server = true ->
  isArray (heap w) arg3 = true ->
  propOf (heap w) server "get" = VFunction (Native id) ->
  returnsNormally env id ->
  Part000.setupPromClient env server path arg3 w
  = (Normal (resultFor (VFunction (AsyncConst (VRef (registryLoc w))))),
     withCall id server
       [path; VRef (useLoc w);
        requestHandler (resultFor (VFunction (AsyncConst (VRef (registryLoc w)))))]
       (withItems (useLoc w) (elementsOf (heap w) arg3) (withDefaultRegistry env w)))
  /\ heap (withItems (useLoc w) (elementsOf (heap w) arg3) (withDefaultRegistry env w))
       !! useLoc w = Some (HArray (elementsOf (heap w) arg3)).
Proof.
  intros Hs Harr Hverb Hn. split; [|apply lookup_insert_eq].
  assert (Ho : Part000.optionsOf (heap w) arg3 = {[ "use" := arg3 ]}).
  { unfold Part000.optionsOf. rewrite Harr. destruct arg3; try done.
    simpl in *. by destruct (heap w !! l) as [[]|]. }
  assert (Hnn : isNil arg3 = false) by (by destruct arg3).
  assert (Hwf : wellFormedArg (heap w) arg3 = true).
  { unfold wellFormedArg. rewrite (isArray_allocated _ _ Harr).
    destruct arg3; try done. simpl in *. by destruct (heap w !! l) as [[]|]. }
  pose proof (Part000_passes env server path arg3 w id Hs Hwf) as HP.
  rewrite Ho, field_singleton_eq, !field_singleton_ne in HP by done.
  unfold badUse, afterUse, afterRegistry, providerOf in HP.
  rewrite Harr, Hnn in HP. by apply HP.
Qed.

(** index.ts leaves [getRegistry] unassigned for an array and for a string,
    and rejects both at its last check. *)
Lemma Index_rejects_array_and_string env server path arg3 w :
  validServer (heap w) server = true ->
  orb (isArray (heap w) arg3) (String.eqb (typeof arg3) "string") = true ->
  fst (Index.setupPromClient env server path arg3 w)
  = Throw (TypeError "optionsOrRegistry is an invalid value")
  /\ trace (snd (Index.setupPromClient env server path arg3 w)) = trace w.
Proof.
  intros Hs Hshape.
  assert (instanceofRegistry (heap w) arg3 = false /\ allocated (heap w) arg3 = true
          /\ propOf (heap w) arg3 "use" = VUndefined) as (Hr & Ha & Hu).
  { destruct arg3; try done. simpl in *. by destruct (heap w !! l) as [[]|]. }
  rewrite Index_closed by (by rewrite ?Hu). unfold closedIndex.
  rewrite Hs, Hr. cbn [negb].
  destruct (isArray (heap w) arg3); [done|].
  simpl in Hshape. by rewrite Hshape.
Qed.

(** C5. On a valid server with [get] and [post], evaluated: given the
    string "post", index.ts throws its last type error and registers
    nothing, where part_000 registers under "post" with an empty middleware
    array; given an array of two middlewares, index.ts throws the same
    error, where part_000 registers under "get" with a copy of the array. *)
Theorem Index_registers_neither_string_nor_array :
  Index.setupPromClient Sample.env Sample.server Sample.path (VString "post") Sample.world0
  = (Throw (TypeError "optionsOrRegistry is an invalid value"), withUse Sample.world0)
  /\ trace (withUse Sample.world0) = []
  /\ fst (Index.setupPromClient Sample.env Sample.server Sample.path (VRef 3) Sample.world0)
     = Throw (TypeError "optionsOrRegistry is an invalid value")
  /\ trace (snd (Index.setupPromClient Sample.env Sample.server Sample.path (VRef 3)
                   Sample.world0)) = []
  /\ trace (snd (Part000.setupPromClient Sample.env Sample.server Sample.path
                   (VString "post") Sample.world0))
     = [EvNewRegistry 8; EvCollectDefaultMetrics (VRef 8);
        EvCall 1 Sample.server
          [Sample.path; VRef 7;
           requestHandler (resultFor (VFunction (AsyncConst (VRef 8))))]]
  /\ heap (snd (Part000.setupPromClient Sample.env Sample.server Sample.path
                  (VString "post") Sample.world0)) !! 7%positive = Some (HArray [])
  /\ trace (snd (Part000.setupPromClient Sample.env Sample.server Sample.path
                   (VRef 3) Sample.world0))
     = [EvNewRegistry 8; EvCollectDefaultMetrics (VRef 8);
        EvCall 0 Sample.server
          [Sample.path; VRef 7;
           requestHandler (resultFor (VFunction (AsyncConst (VRef 8))))]]
  /\ heap (snd (Part000.setupPromClient Sample.env Sample.server Sample.path
                  (VRef 3) Sample.world0)) !! 7%positive
     = Some (HArray [VFunction (Native 20); VFunction (Native 21)]).
Proof. repeat split; vm_compute; reflexivity. Qed.

(** The checks of part_000: a rejected field gives a type error, and with
    no rejected field the call goes on to the registration. *)
Lemma Part000_type_errors env server path arg3 w :
  validServer (heap w) server = true ->
  wellFormedArg (heap w) arg3 = true ->
  (orb (badGetRegistry (field (Part000.optionsOf (heap w) arg3) "getRegistry"))
     (orb (badUse (heap w) (field (Part000.optionsOf (heap w) arg3) "use"))
          (badHttpMethod (field (Part000.optionsOf (heap w) arg3) "httpMethod"))) = true ->
   exists msg w', Part000.setupPromClient env server path arg3 w = (Throw (TypeError msg), w'))
  /\ (orb (badGetRegistry (field (Part000.optionsOf (heap w) arg3) "getRegistry"))
        (orb (badUse (heap w) (field (Part000.optionsOf (heap w) arg3) "use"))
             (badHttpMethod (field (Part000.optionsOf (heap w) arg3) "httpMethod"))) = false ->
      Part000.setupPromClient env server path arg3 w
      = registerWith env server path (VRef (useLoc w))
          (providerOf (field (Part000.optionsOf (heap w) arg3) "getRegistry") w)
          (methodOf (field (Part000.optionsOf (heap w) arg3) "httpMethod"))
          (afterUse env (field (Part000.optionsOf (heap w) arg3) "getRegistry")
             (field (Part000.optionsOf (heap w) arg3) "use") w)).
Proof.
  intros Hs Hwf. destruct (wellFormedArg_options _ _ Hwf) as (Ha & _ & Hau).
  rewrite Part000_closed by done. unfold closedPart000. rewrite Hs. cbn [negb].
  destruct (badGetRegistry _), (badUse _ _), (badHttpMethod _); cbn [orb];
    split; intros; try discriminate; eauto.
Qed.

(** The checks of index.ts on an options object: a rejected field gives a
    type error. *)
Lemma Index_type_errors env server path arg3 w :
  validServer (heap w) server = true ->
  wellFormedArg (heap w) arg3 = true ->
  orb (badGetRegistry (propOf (heap w) arg3 "getRegistry"))
    (orb (badUse (heap w) (propOf (heap w) arg3 "use"))
         (badHttpMethod (propOf (heap w) arg3 "httpMethod"))) = true ->
  exists msg w', Index.setupPromClient env server path arg3 w = (Throw (TypeError msg), w').
Proof.
  intros Hs Hwf Hbad. destruct (wellFormedArg_options _ _ Hwf) as (Ha & Hu & _).
  rewrite Index_closed by done. unfold closedIndex. rewrite Hs. cbn [negb].
  assert (Hprov : badGetRegistry (propOf (heap w) arg3 "getRegistry")
                  = negb (typeof (providerOf (propOf (heap w) arg3 "getRegistry") w)
                          =? "function")).
  { unfold badGetRegistry, providerOf.
    by destruct (isNil (propOf (heap w) arg3 "getRegistry")). }
  rewrite <- Hprov.
  assert (instanceofRegistry (heap w) arg3 = false) as ->.
  { destruct arg3; try done. simpl in *. by destruct (heap w !! l) as [[]|]. }
  destruct (isArray (heap w) arg3); [eauto|].
  destruct (typeof arg3 =? "string"); [eauto|].
  destruct (badUse _ _); [eauto|]. destruct (badHttpMethod _); [eauto|].
  destruct (badGetRegistry _); [eauto|done].
Qed.

(** C6. On a valid server, evaluated at an array of two middlewares as
    third argument: the argument is an array, it has no [getRegistry],
    [use] or [httpMethod] of its own to reject, and index.ts still throws
    the type error of its [getRegistry] check. *)
Theorem Index_type_error_without_rejected_field :
  isArray (heap Sample.world0) (VRef 3) = true
  /\ badGetRegistry (propOf (heap Sample.world0) (VRef 3) "getRegistry") = false
  /\ badUse (heap Sample.world0) (propOf (heap Sample.world0) (VRef 3) "use") = false
  /\ badHttpMethod (propOf (heap Sample.world0) (VRef 3) "httpMethod") = false
  /\ Index.setupPromClient Sample.env Sample.server Sample.path (VRef 3) Sample.world0
     = (Throw (TypeError "optionsOrRegistry is an invalid value"),
        withItems 7 [VFunction (Native 20); VFunction (Native 21)] (withUse Sample.world0)).
Proof. repeat split; vm_compute; reflexivity. Qed.


(** C7, as the spec states it, fails: on a valid server, with options whose
    [use] is a number and which have no [getRegistry], both versions throw
    their type error for [use] in a world where a registry has been created
    and the default metrics collected. *)
Lemma use_rejected_after_default_registry :
  Index.setupPromClient Sample.env Sample.server Sample.path (VRef 5) Sample.world0
  = (Throw (TypeError "arg3.use must be of type array"),
     withDefaultRegistry Sample.env Sample.world0)
  /\ Part000.setupPromClient Sample.env Sample.server Sample.path (VRef 5) Sample.world0
  = (Throw (TypeError "use must be of type array"),
     withDefaultRegistry Sample.env Sample.world0)
  /\ trace (withDefaultRegistry Sample.env Sample.world0)
     = [EvNewRegistry 8; EvCollectDefaultMetrics (VRef 8)]
  /\ trace Sample.world0 = [].
Proof. repeat split; vm_compute; reflexivity. Qed.

Lemma registerWith_throw_cases env server path use provider method w e w' :
  registerWith env server path use provider method w = (Throw e, w') ->
  w' = w
  \/ exists verb handler,
       typeof verb = "function"
       /\ callValue env verb server [path; use; handler] w = (Throw e, w').
Proof.
  unfold registerWith.
  destruct (callValue _ _ _ _ _) as [[r|e0] w0] eqn:E; [discriminate|].
  intros [= -> ->].
  destruct (propOf (heap w) server method) as [| | | | | | | |f] eqn:Hv;
    try (left; by injection E as _ <-).
  right. by exists (VFunction f), (VFunction (RequestHandler (asAsync provider))).
Qed.

(** C7, amended. A call of either version that throws either passes on an
    error thrown by the server's registration function, called after every
    check has passed, or has not called that function, so that nothing is
    registered. In both cases the events up to there are none at all, or,
    exactly on the inputs where the version falls back to a default
    registry ([defaultsIndex], [defaultsPart000]), the creation of that
    registry and the one collection of the default metrics into it. *)
Theorem setup_error_effects env server path arg3 w :
  wellFormedArg (heap w) arg3 = true ->
  (forall e w',
      Index.setupPromClient env server path arg3 w = (Throw e, w') ->
      trace w' = eventsBeforeRegistration (defaultsIndex (heap w) server arg3) w
      \/ exists verb handler w3,
           typeof verb = "function"
           /\ trace w3 = eventsBeforeRegistration (defaultsIndex (heap w) server arg3) w
           /\ callValue env verb server [path; VRef (useLoc w); handler] w3 = (Throw e, w'))
  /\ (forall e w',
      Part000.setupPromClient env server path arg3 w = (Throw e, w') ->
      trace w' = eventsBeforeRegistration (defaultsPart000 (heap w) server arg3) w
      \/ exists verb handler w3,
           typeof verb = "function"
           /\ trace w3 = eventsBeforeRegistration (defaultsPart000 (heap w) server arg3) w
           /\ callValue env verb server [path; VRef (useLoc w); handler] w3 = (Throw e, w')).
Proof.
  intros Hwf. destruct (wellFormedArg_options _ _ Hwf) as (Ha & Hu & Hau).
  assert (Hcall : forall provider method w3 (d : bool) e w',
    trace w3 = eventsBeforeRegistration d w ->
    registerWith env server path (VRef (useLoc w)) provider method w3 = (Throw e, w') ->
    trace w' = eventsBeforeRegistration d w
    \/ exists verb handler w3,
         typeof verb = "function"
         /\ trace w3 = eventsBeforeRegistration d w
         /\ callValue env verb server [path; VRef (useLoc w); handler] w3 = (Throw e, w')).
  { intros provider method w3 d e w' Ht H.
    apply registerWith_throw_cases in H as [-> | (verb & handler & Hf & Hc)];
      [by left | right; by exists verb, handler, w3]. }
  assert (Hnil : forall g, badGetRegistry g = true -> isNil g = false)
    by (intros g; unfold badGetRegistry; by destruct (isNil g)).
  split; intros e w'.
  - rewrite Index_closed by done. unfold closedIndex, defaultsIndex.
    destruct (validServer (heap w) server); cbn [negb andb];
      [|intros [= _ <-]; left; unfold eventsBeforeRegistration; by rewrite app_nil_r].
    destruct (instanceofRegistry (heap w) arg3); cbn [negb andb].
    { apply Hcall. unfold eventsBeforeRegistration. by rewrite app_nil_r. }
    destruct (isArray (heap w) arg3); cbn [negb andb];
      [intros [= _ <-]; left; unfold eventsBeforeRegistration; by rewrite app_nil_r|].
    destruct (typeof arg3 =? "string"); cbn [negb andb];
      [intros [= _ <-]; left; unfold eventsBeforeRegistration; by rewrite app_nil_r|].
    assert (Ht : forall u, trace (afterUse env (propOf (heap w) arg3 "getRegistry") u w)
                 = eventsBeforeRegistration (isNil (propOf (heap w) arg3 "getRegistry")) w)
      by (intros u; by rewrite trace_afterUse, trace_afterRegistry).
    destruct (badUse _ _);
      [intros [= _ <-]; left; by rewrite <- (Ht VUndefined), trace_afterUse|].
    destruct (badHttpMethod _); [intros [= _ <-]; left; apply Ht|].
    destruct (negb _); [intros [= _ <-]; left; apply Ht|].
    apply Hcall, Ht.
  - rewrite Part000_closed by done. unfold closedPart000, defaultsPart000.
    destruct (validServer (heap w) server); cbn [negb andb];
      [|intros [= _ <-]; left; unfold eventsBeforeRegistration; by rewrite app_nil_r].
    set (g := field (Part000.optionsOf (heap w) arg3) "getRegistry").
    assert (Ht : forall u, trace (afterUse env g u w) = eventsBeforeRegistration (isNil g) w)
      by (intros u; by rewrite trace_afterUse, trace_afterRegistry).
    destruct (badGetRegistry g) eqn:Hg.
    { intros [= _ <-]. left. rewrite (Hnil _ Hg).
      unfold eventsBeforeRegistration. by rewrite app_nil_r. }
    destruct (badUse _ _);
      [intros [= _ <-]; left; by rewrite <- (Ht VUndefined), trace_afterUse|].
    destruct (badHttpMethod _); [intros [= _ <-]; left; apply Ht|].
    apply Hcall, Ht.
Qed.

Lemma setup_error_effects_witness :
  (trace (withDefaultRegistry Sample.env Sample.world0)
   = eventsBeforeRegistration (defaultsIndex (heap Sample.world0) Sample.server (VRef 5))
       Sample.world0
   \/ exists verb handler w3,
        typeof verb = "function"
        /\ trace w3
           = eventsBeforeRegistration
               (defaultsIndex (heap Sample.world0) Sample.server (VRef 5)) Sample.world0
        /\ callValue Sample.env verb Sample.server
             [Sample.path; VRef (useLoc Sample.world0); handler] w3
           = (Throw (TypeError "arg3.use must be of type array"),
              withDefaultRegistry Sample.env Sample.world0))
  /\ (trace (withDefaultRegistry Sample.env Sample.world0)
      = eventsBeforeRegistration (defaultsPart000 (heap Sample.world0) Sample.server (VRef 5))
          Sample.world0
      \/ exists verb handler w3,
           typeof verb = "function"
           /\ trace w3
              = eventsBeforeRegistration
                  (defaultsPart000 (heap Sample.world0) Sample.server (VRef 5)) Sample.world0
           /\ callValue Sample.env verb Sample.server
                [Sample.path; VRef (useLoc Sample.world0); handler] w3
              = (Throw (TypeError "use must be of type array"),
                 withDefaultRegistry Sample.env Sample.world0)).
Proof.
  split.
  - apply (proj1 (setup_error_effects Sample.env Sample.server Sample.path (VRef 5)
                    Sample.world0 eq_refl)
             (TypeError "arg3.use must be of type array")).
    reflexivity.
  - apply (proj2 (setup_error_effects Sample.env Sample.server Sample.path (VRef 5)
                    Sample.world0 eq_refl)
             (TypeError "use must be of type array")).
    reflexivity.
Defined.

(** C9, as the spec states it, fails: on a valid server, index.ts given a
    bare provider function does not throw; it returns, with a default
    registry (created at location 8) behind [getRegistry], not the
    function. *)
Lemma Index_accepts_bare_function :
  fst (Index.setupPromClient Sample.env Sample.server Sample.path (VFunction (Native 7))
         Sample.world0)
  = Normal (resultFor (VFunction (AsyncConst (VRef 8))))
  /\ trace (snd (Index.setupPromClient Sample.env Sample.server Sample.path
                   (VFunction (Native 7)) Sample.world0))
     = [EvNewRegistry 8; EvCollectDefaultMetrics (VRef 8);
        EvCall 0 Sample.server
          [Sample.path; VRef 7;
           requestHandler (resultFor (VFunction (AsyncConst (VRef 8))))]].
Proof. split; vm_compute; reflexivity. Qed.

(** C9, amended. For a third argument that is absent, a Registry instance
    or an options object that has what it has of [getRegistry], [use] and
    [httpMethod] as own enumerable properties ([isOptionsObject]), the two
    versions complete alike: with the same result in the same world, or,
    when a field of the options is rejected, each with a type error (the
    messages differ) after the same events. For a bare function [f] they
    differ: part_000 registers with [f] as the provider and creates no
    registry; index.ts does what it does without a third argument, falling
    back to a default registry. (A server with [get] a host function that
    returns.) *)
Theorem versions_agree_except_on_functions env server path arg3 w id f :
  validServer (heap w) server = true ->
  wellFormedArg (heap w) arg3 = true ->
  orb (isNil arg3) (orb (instanceofRegistry (heap w) arg3) (isOptionsObject (heap w) arg3))
    = true ->
  propOf (heap w) server "get" = VFunction (Native id) ->
  returnsNormally env id ->
  (Index.setupPromClient env server path arg3 w
   = Part000.setupPromClient env server path arg3 w
   \/ exists msgI msgP wI wP,
        Index.setupPromClient env server path arg3 w = (Throw (TypeError msgI), wI)
        /\ Part000.setupPromClient env server path arg3 w = (Throw (TypeError msgP), wP)
        /\ trace wI = trace wP)
  /\ Part000.setupPromClient env server path (VFunction f) w
     = (Normal (resultFor (VFunction f)),
        withCall id server [path; VRef (useLoc w); requestHandler (resultFor (VFunction f))]
          (withUse w))
  /\ Index.setupPromClient env server path (VFunction f) w
     = Index.setupPromClient env server path VUndefined w
  /\ Index.setupPromClient env server path (VFunction f) w
     = (Normal (resultFor (VFunction (AsyncConst (VRef (registryLoc w))))),
        withCall id server
          [path; VRef (useLoc w);
           requestHandler (resultFor (VFunction (AsyncConst (VRef (registryLoc w)))))]
          (withDefaultRegistry env w)).
Proof.
  intros Hs Hwf Hshape Hverb Hn.
  destruct (wellFormedArg_options _ _ Hwf) as (Ha & Hu & Hau).
  assert (HIf : Index.setupPromClient env server path (VFunction f) w
                = Index.setupPromClient env server path VUndefined w)
    by (by rewrite !Index_closed).
  split; [|split; [|split]]; [| |exact HIf|].
  - rewrite Index_closed, Part000_closed by done.
    unfold closedIndex, closedPart000. rewrite Hs. cbn [negb].
    destruct (instanceofRegistry (heap w) arg3) eqn:Hr.
    + left. destruct (instanceofRegistry_shape _ _ Hr) as (_ & _ & [l ->] & _).
      rewrite optionsOf_registry by done.
      by rewrite field_singleton_eq, !field_singleton_ne.
    + rewrite orb_false_l in Hshape.
      destruct (isOptionsObject_shape _ _ Hshape) as (_ & Harr & Hstr & _).
      rewrite Harr, Hstr, !optionsOf_fields by done.
      set (g := propOf (heap w) arg3 "getRegistry").
      set (u := propOf (heap w) arg3 "use").
      set (m := propOf (heap w) arg3 "httpMethod").
      assert (Hprov : badGetRegistry g
                      = negb (typeof (providerOf g w) =? "function")).
      { unfold badGetRegistry, providerOf. by destruct (isNil g). }
      rewrite <- Hprov.
      assert (Hnil : badGetRegistry g = true ->
                     trace (afterRegistry env g w) = trace w).
      { unfold badGetRegistry. rewrite trace_afterRegistry.
        destruct (isNil g); [done|]. intros _. apply app_nil_r. }
      destruct (badGetRegistry g) eqn:Hg, (badUse (heap w) u), (badHttpMethod m);
        try (by left); right; do 4 eexists;
        (split; [reflexivity|split; [reflexivity|]]);
        rewrite ?trace_afterUse; rewrite ?Hnil by done; done.
  - assert (Hwf' : wellFormedArg (heap w) (VFunction f) = true) by done.
    by apply (Part000_passes env server path (VFunction f) w id).
  - rewrite HIf. by apply (Index_passes env server path VUndefined w id).
Qed.

Lemma versions_agree_except_on_functions_witness :
  (Index.setupPromClient Sample.env Sample.server Sample.path (VRef 4) Sample.world0
   = Part000.setupPromClient Sample.env Sample.server Sample.path (VRef 4) Sample.world0
   \/ exists msgI msgP wI wP,
        Index.setupPromClient Sample.env Sample.server Sample.path (VRef 4) Sample.world0
        = (Throw (TypeError msgI), wI)
        /\ Part000.setupPromClient Sample.env Sample.server Sample.path (VRef 4) Sample.world0
           = (Throw (TypeError msgP), wP)
        /\ trace wI = trace wP)
  /\ Part000.setupPromClient Sample.env Sample.server Sample.path (VFunction (Native 7))
       Sample.world0
     = (Normal (resultFor (VFunction (Native 7))),
        withCall 0 Sample.server
          [Sample.path; VRef (useLoc Sample.world0);
           requestHandler (resultFor (VFunction (Native 7)))]
          (withUse Sample.world0))
  /\ Index.setupPromClient Sample.env Sample.server Sample.path (VFunction (Native 7))
       Sample.world0
     = Index.setupPromClient Sample.env Sample.server Sample.path VUndefined Sample.world0
  /\ Index.setupPromClient Sample.env Sample.server Sample.path (VFunction (Native 7))
       Sample.world0
     = (Normal (resultFor (VFunction (AsyncConst (VRef (registryLoc Sample.world0))))),
        withCall 0 Sample.server
          [Sample.path; VRef (useLoc Sample.world0);
           requestHandler
             (resultFor (VFunction (AsyncConst (VRef (registryLoc Sample.world0)))))]
          (withDefaultRegistry Sample.env Sample.world0)).
Proof.
  apply (versions_agree_except_on_functions Sample.env Sample.server Sample.path (VRef 4)
           Sample.world0 0 (Native 7));
    [reflexivity | reflexivity | reflexivity | reflexivity
    | exact returnsNormally_sample_get].
Defined.

(** The restriction to own enumerable fields is needed: index.ts reads
    [arg3.httpMethod], part_000 reads the copy [{ ...arg3 }]. With "post"
    as an [httpMethod] that is own but not enumerable (object 12), or
    inherited (object 13), index.ts registers under "post" and part_000
    under "get". *)
Example versions_differ_on_hidden_httpMethod :
  last (trace (snd (Index.setupPromClient Sample.env Sample.server Sample.path (VRef 12)
                      Sample2.world1)))
  = Some (EvCall 1 Sample.server
            [Sample.path; VRef (useLoc Sample2.world1);
             requestHandler
               (resultFor (VFunction (AsyncConst (VRef (registryLoc Sample2.world1)))))])
  /\ last (trace (snd (Part000.setupPromClient Sample.env Sample.server Sample.path (VRef 12)
                         Sample2.world1)))
     = Some (EvCall 0 Sample.server
               [Sample.path; VRef (useLoc Sample2.world1);
                requestHandler
                  (resultFor (VFunction (AsyncConst (VRef (registryLoc Sample2.world1)))))])
  /\ last (trace (snd (Index.setupPromClient Sample.env Sample.server Sample.path (VRef 13)
                         Sample2.world1)))
     = Some (EvCall 1 Sample.server
               [Sample.path; VRef (useLoc Sample2.world1);
                requestHandler
                  (resultFor (VFunction (AsyncConst (VRef (registryLoc Sample2.world1)))))])
  /\ last (trace (snd (Part000.setupPromClient Sample.env Sample.server Sample.path (VRef 13)
                         Sample2.world1)))
     = Some (EvCall 0 Sample.server
               [Sample.path; VRef (useLoc Sample2.world1);
                requestHandler
                  (resultFor (VFunction (AsyncConst (VRef (registryLoc Sample2.world1)))))]).
Proof. repeat split; vm_compute; reflexivity. Qed.

(** C10. A call that passes the checks (stated on the options part_000
    resolves; the server's method a host function that returns) registers
    with a new array at a location that was free, holding the elements of
    the caller's middleware array (given directly or as [use]) in order.
    Every object that existed before the call, the third argument and its
    array among them, is the same after the call, in both versions; and
    writing to any of them afterwards leaves the registered array as it
    is. For an absent third argument or an options object index.ts ends
    in the same result and world. *)
Theorem third_argument_not_mutated env server path arg3 w id :
  validServer (heap w) server = true ->
  wellFormedArg (heap w) arg3 = true ->
  badGetRegistry (field (Part000.optionsOf (heap w) arg3) "getRegistry") = false ->
  badUse (heap w) (field (Part000.optionsOf (heap w) arg3) "use") = false ->
  badHttpMethod (field (Part000.optionsOf (heap w) arg3) "httpMethod") = false ->
  propOf (heap w) server
    (methodOf (field (Part000.optionsOf (heap w) arg3) "httpMethod")) = VFunction (Native id) ->
  returnsNormally env id ->
  exists res w',
    Part000.setupPromClient env server path arg3 w = (Normal res, w')
    /\ last (trace w')
       = Some (EvCall id server [path; VRef (useLoc w); requestHandler res])
    /\ heap w !! useLoc w = None
    /\ heap w' !! useLoc w
       = Some (HArray (elementsOf (heap w) (field (Part000.optionsOf (heap w) arg3) "use")))
    /\ (forall l, is_Some (heap w !! l) -> heap w' !! l = heap w !! l)
    /\ (forall l o, is_Some (heap w !! l) ->
          <[l := o]> (heap w') !! useLoc w
          = Some (HArray (elementsOf (heap w) (field (Part000.optionsOf (heap w) arg3) "use"))))
    /\ (forall l, is_Some (heap w !! l) ->
          heap (snd (Index.setupPromClient env server path arg3 w)) !! l = heap w !! l)
    /\ (orb (isNil arg3) (isOptionsObject (heap w) arg3) = true ->
        Index.setupPromClient env server path arg3 w = (Normal res, w')).
Proof.
  intros Hs Hwf Hg Hu Hm Hverb Hn.
  pose proof (Part000_passes env server path arg3 w id Hs Hwf Hg Hu Hm Hverb Hn) as HP.
  do 2 eexists. split; [exact HP|].
  split; [apply last_snoc|].
  split; [apply useLoc_fresh|].
  split; [apply lookup_use_afterUse|].
  split; [|split; [|split]].
  - intros l Hl. rewrite <- (Part000_frame env server path arg3 w l Hwf Hl).
    by rewrite HP.
  - intros l o Hl. cbn [withCall heap].
    rewrite lookup_insert_ne by (apply not_eq_sym; by apply allocated_ne_use).
    apply lookup_use_afterUse.
  - intros l Hl. by apply Index_frame.
  - intros Ho. rewrite !optionsOf_fields in * by done.
    by apply (Index_passes env server path arg3 w id).
Qed.

Lemma third_argument_not_mutated_witness :
  exists res w',
    Part000.setupPromClient Sample.env Sample.server Sample.path (VRef 4) Sample.world0
    = (Normal res, w')
    /\ last (trace w')
       = Some (EvCall 1 Sample.server [Sample.path; VRef 7; requestHandler res])
    /\ heap Sample.world0 !! 7%positive = None
    /\ heap w' !! 7%positive = Some (HArray [VFunction (Native 20); VFunction (Native 21)])
    /\ (forall l, is_Some (heap Sample.world0 !! l) -> heap w' !! l = heap Sample.world0 !! l)
    /\ (forall l o, is_Some (heap Sample.world0 !! l) ->
          <[l := o]> (heap w') !! 7%positive
          = Some (HArray [VFunction (Native 20); VFunction (Native 21)]))
    /\ (forall l, is_Some (heap Sample.world0 !! l) ->
          heap (snd (Index.setupPromClient Sample.env Sample.server Sample.path (VRef 4)
                       Sample.world0)) !! l = heap Sample.world0 !! l)
    /\ (orb (isNil (VRef 4)) (isOptionsObject (heap Sample.world0) (VRef 4)) = true ->
        Index.setupPromClient Sample.env Sample.server Sample.path (VRef 4) Sample.world0
        = (Normal res, w')).
Proof.
  apply (third_argument_not_mutated Sample.env Sample.server Sample.path (VRef 4)
           Sample.world0 1);
    [reflexivity | reflexivity | reflexivity | reflexivity | reflexivity | reflexivity
    | exact returnsNormally_sample_post].
Defined.

(** * Further properties of the code *)

(** ** The request handler when something fails *)

Lemma requestHandler_call env g this request response rest w :
  callValue env (VFunction (RequestHandler g)) this (request :: response :: rest) w
  = async (requestHandlerBody (callValue env g VUndefined []) response) w.
Proof. reflexivity. Qed.

(** X1. When the provider throws, or returns a promise that rejects with
    [e], the handler returns a promise rejected with [e] and the world is
    the one the provider's call left: [writeHead] and [write] are not
    called. *)
Theorem requestHandler_provider_failure env provider this request response rest
    w c w1 e :
  callValue env provider VUndefined [] w = (c, w1) ->
  settle c = VPromise Rejected e ->
  callValue env (VFunction (RequestHandler (asAsync provider))) this
    (request :: response :: rest) w
  = (Normal (VPromise Rejected e), w1).
Proof.
  intros Hcall Hsettle. rewrite requestHandler_call. unfold async, requestHandlerBody.
  erewrite bind_eq by (rewrite callValue_asAsync, Hcall; reflexivity).
  cbn [fst snd]. rewrite Hsettle. reflexivity.
Qed.

Lemma requestHandler_provider_failure_witness :
  callValue Sample.env
    (VFunction (RequestHandler
       (asAsync (VFunction (AsyncConst (VPromise Rejected (VError "Error" "down")))))))
    VUndefined [VString "request"; VString "response"] Sample.world0
  = (Normal (VPromise Rejected (VError "Error" "down")), Sample.world0).
Proof.
  apply (requestHandler_provider_failure Sample.env
           (VFunction (AsyncConst (VPromise Rejected (VError "Error" "down"))))
           VUndefined (VString "request") (VString "response") [] Sample.world0
           (Normal (VPromise Rejected (VError "Error" "down"))));
    reflexivity.
Defined.

(** X2. When the provider settles to a registry whose [metrics()] rejects
    with [e], the handler returns a promise rejected with [e]; nothing has
    been written to the response, not even the head. *)
Theorem requestHandler_metrics_failure env provider this request response rest
    w c w1 l st e :
  callValue env provider VUndefined [] w = (c, w1) ->
  settle c = VPromise Fulfilled (VRef l) ->
  heap w1 !! l = Some (HRegistry st) ->
  metrics st = inr e ->
  callValue env (VFunction (RequestHandler (asAsync provider))) this
    (request :: response :: rest) w
  = (Normal (VPromise Rejected e), w1).
Proof.
  intros Hcall Hsettle Hl He. rewrite requestHandler_call. unfold async, requestHandlerBody.
  erewrite bind_eq by (rewrite callValue_asAsync, Hcall; reflexivity).
  cbn [fst snd]. rewrite Hsettle. cbn [await]. run (run_ret _ _).
  unfold Registry_metrics. rewrite bind_assoc. run (run_getHeap _). rewrite Hl, He.
  run (run_ret _ _). reflexivity.
Qed.

Lemma requestHandler_metrics_failure_witness :
  callValue Sample.env
    (VFunction (RequestHandler (asAsync (VFunction (AsyncConst (VRef 1))))))
    VUndefined [VString "request"; VString "response"]
    {| heap := {[ 1%positive :=
                  HRegistry {| contentType := "text/plain";
                               metrics := inr (VError "Error" "collect failed") |} ]};
       trace := [] |}
  = (Normal (VPromise Rejected (VError "Error" "collect failed")),
     {| heap := {[ 1%positive :=
                  HRegistry {| contentType := "text/plain";
                               metrics := inr (VError "Error" "collect failed") |} ]};
        trace := [] |}).
Proof.
  apply (requestHandler_metrics_failure Sample.env (VFunction (AsyncConst (VRef 1)))
           VUndefined (VString "request") (VString "response") []
           {| heap := {[ 1%positive :=
                  HRegistry {| contentType := "text/plain";
                               metrics := inr (VError "Error" "collect failed") |} ]};
              trace := [] |}
           (Normal (VPromise Fulfilled (VRef 1))) _ 1%positive
           {| contentType := "text/plain";
              metrics := inr (VError "Error" "collect failed") |});
    reflexivity.
Defined.

(** X3. When the provider settles to [undefined] or [null], the call
    [registry.metrics()] throws a type error inside the handler: the
    handler returns a promise rejected with it and writes nothing. *)
Theorem requestHandler_nil_registry env provider this request response rest
    w c w1 v :
  callValue env provider VUndefined [] w = (c, w1) ->
  settle c = VPromise Fulfilled v ->
  isNil v = true ->
  exists message,
    callValue env (VFunction (RequestHandler (asAsync provider))) this
      (request :: response :: rest) w
    = (Normal (VPromise Rejected (TypeError message)), w1).
Proof.
  intros Hcall Hsettle Hnil. eexists.
  rewrite requestHandler_call. unfold async, requestHandlerBody.
  erewrite bind_eq by (rewrite callValue_asAsync, Hcall; reflexivity).
  cbn [fst snd]. rewrite Hsettle. cbn [await]. run (run_ret _ _).
  unfold Registry_metrics. rewrite bind_assoc. run (run_getHeap _).
  destruct v; try discriminate; reflexivity.
Qed.

Lemma requestHandler_nil_registry_witness :
  exists message,
    callValue Sample.env
      (VFunction (RequestHandler (asAsync (VFunction (AsyncConst VUndefined)))))
      VUndefined [VString "request"; VString "response"] Sample.world0
    = (Normal (VPromise Rejected (TypeError message)), Sample.world0).
Proof.
  apply (requestHandler_nil_registry Sample.env (VFunction (AsyncConst VUndefined))
           VUndefined (VString "request") (VString "response") [] Sample.world0
           (Normal (VPromise Fulfilled VUndefined)) Sample.world0 VUndefined);
    reflexivity.
Defined.

(** ** Providers, rejected options and other third arguments *)

(** X4. With an options object whose [getRegistry] is a host function and
    whose other fields pass, both versions register and return, with the
    wrapped provider as [getRegistry], without creating a registry and
    without calling the provider: the only event is the registration, and
    the heap gains only the middleware array. *)
Theorem custom_provider_not_called_at_setup env server path arg3 w vid pid :
  validServer (heap w) server = true ->
  isOptionsObject (heap w) arg3 = true ->
  propOf (heap w) arg3 "getRegistry" = VFunction (Native pid) ->
  badUse (heap w) (propOf (heap w) arg3 "use") = false ->
  badHttpMethod (propOf (heap w) arg3 "httpMethod") = false ->
  propOf (heap w) server (methodOf (propOf (heap w) arg3 "httpMethod"))
    = VFunction (Native vid) ->
  returnsNormally env vid ->
  exists w',
    Index.setupPromClient env server path arg3 w
    = (Normal (resultFor (VFunction (Native pid))), w')
    /\ Part000.setupPromClient env server path arg3 w
       = (Normal (resultFor (VFunction (Native pid))), w')
    /\ trace w'
       = (trace w ++
          [EvCall vid server
             [path; VRef (useLoc w); requestHandler (resultFor (VFunction (Native pid)))]])%list
    /\ heap w'
       = <[useLoc w := HArray (elementsOf (heap w) (propOf (heap w) arg3 "use"))]> (heap w).
Proof.
  intros Hs Ho Hg Hu Hm Hverb Hn.
  assert (Ho' : isNil arg3 || isOptionsObject (heap w) arg3 = true)
    by (rewrite Ho; apply orb_true_r).
  destruct (isOptionsObject_shape _ _ Ho') as (_ & _ & _ & Ha).
  assert (Hbg : badGetRegistry (propOf (heap w) arg3 "getRegistry") = false)
    by (by rewrite Hg).
  assert (Hwf : wellFormedArg (heap w) arg3 = true)
    by (unfold wellFormedArg; by rewrite Ha, (badUse_false_allocated _ _ Hu)).
  pose proof (Index_passes env server path arg3 w vid Hs Ho' Hbg Hu Hm Hverb Hn) as HI.
  pose proof (Part000_passes env server path arg3 w vid Hs Hwf) as HP.
  rewrite !optionsOf_fields in HP by done. specialize (HP Hbg Hu Hm Hverb Hn).
  rewrite Hg in HI, HP. unfold providerOf in HI, HP. cbn [isNil] in HI, HP.
  eexists. split; [exact HI|]. split; [exact HP|]. split.
  - cbn [withCall trace]. rewrite trace_afterUse, trace_afterRegistry.
    cbn [isNil]. by rewrite app_nil_r.
  - cbn [withCall heap]. unfold afterUse, afterRegistry. cbn [isNil].
    destruct (isNil (propOf (heap w) arg3 "use")) eqn:Hnil; cbn [withItems withUse heap].
    + by destruct (propOf (heap w) arg3 "use").
    + apply insert_insert_eq.
Qed.

Lemma custom_provider_not_called_at_setup_witness :
  exists w',
    Index.setupPromClient Sample.env Sample.server Sample.path (VRef 11) Sample2.world1
    = (Normal (resultFor (VFunction (Native 7))), w')
    /\ Part000.setupPromClient Sample.env Sample.server Sample.path (VRef 11) Sample2.world1
       = (Normal (resultFor (VFunction (Native 7))), w')
    /\ trace w'
       = [EvCall 1 Sample.server
            [Sample.path; VRef (useLoc Sample2.world1);
             requestHandler (resultFor (VFunction (Native 7)))]]
    /\ heap w' = <[useLoc Sample2.world1 := HArray []]> (heap Sample2.world1).
Proof.
  apply (custom_provider_not_called_at_setup Sample.env Sample.server Sample.path (VRef 11)
           Sample2.world1 1 7);
    [reflexivity | reflexivity | reflexivity | reflexivity | reflexivity | reflexivity
    | exact returnsNormally_sample_post].
Defined.

(** X5. part_000 checks [getRegistry] first, then [use], then
    [httpMethod]: when a field of the resolved options is rejected, the
    error is the one for [getRegistry] if that is rejected, whatever the
    other fields are, and otherwise carries the message "use must be of
    type array", for a rejected [use] and for a rejected [httpMethod]
    alike. *)
Theorem Part000_error_precedence env server path arg3 w :
  validServer (heap w) server = true ->
  wellFormedArg (heap w) arg3 = true ->
  orb (badGetRegistry (field (Part000.optionsOf (heap w) arg3) "getRegistry"))
    (orb (badUse (heap w) (field (Part000.optionsOf (heap w) arg3) "use"))
         (badHttpMethod (field (Part000.optionsOf (heap w) arg3) "httpMethod"))) = true ->
  fst (Part000.setupPromClient env server path arg3 w)
  = Throw (TypeError
             (if badGetRegistry (field (Part000.optionsOf (heap w) arg3) "getRegistry")
              then "getRegistry must be of type function"
              else "use must be of type array")).
Proof.
  intros Hs Hwf Hbad. destruct (wellFormedArg_options _ _ Hwf) as (Ha & _ & Hau).
  rewrite Part000_closed by done. unfold closedPart000. rewrite Hs. cbn [negb].
  destruct (badGetRegistry _); [done|].
  destruct (badUse _ _); [done|]. by destruct (badHttpMethod _).
Qed.

Lemma Part000_error_precedence_witness :
  fst (Part000.setupPromClient Sample.env Sample.server Sample.path (VRef 10) Sample2.world1)
  = Throw (TypeError "getRegistry must be of type function").
Proof.
  apply (Part000_error_precedence Sample.env Sample.server Sample.path (VRef 10)
           Sample2.world1); reflexivity.
Defined.

(** X6. index.ts checks the fields of an options object in another order:
    [use] first, then [httpMethod], and [getRegistry] last, so a rejected
    [use] is reported even when [getRegistry] is not callable. *)
Theorem Index_error_precedence env server path arg3 w :
  validServer (heap w) server = true ->
  wellFormedArg (heap w) arg3 = true ->
  isOptionsObject (heap w) arg3 = true ->
  orb (badGetRegistry (propOf (heap w) arg3 "getRegistry"))
    (orb (badUse (heap w) (propOf (heap w) arg3 "use"))
         (badHttpMethod (propOf (heap w) arg3 "httpMethod"))) = true ->
  fst (Index.setupPromClient env server path arg3 w)
  = Throw (TypeError
             (if badUse (heap w) (propOf (heap w) arg3 "use")
              then "arg3.use must be of type array"
              else if badHttpMethod (propOf (heap w) arg3 "httpMethod")
                   then "arg3.httpMethod must be of type string"
                   else "optionsOrRegistry is an invalid value")).
Proof.
  intros Hs Hwf Ho Hbad. destruct (wellFormedArg_options _ _ Hwf) as (Ha & Hu & _).
  assert (Ho' : isNil arg3 || isOptionsObject (heap w) arg3 = true)
    by (rewrite Ho; apply orb_true_r).
  destruct (isOptionsObject_shape _ _ Ho') as (Hr & Harr & Hstr & _).
  rewrite Index_closed by done. unfold closedIndex.
  rewrite Hs, Hr, Harr, Hstr. cbn [negb].
  destruct (badUse _ _); [done|]. destruct (badHttpMethod _); [done|].
  rewrite !orb_false_r in Hbad.
  replace (typeof (providerOf (propOf (heap w) arg3 "getRegistry") w) =? "function")
    with false; [done|].
  unfold badGetRegistry, providerOf in *.
  destruct (isNil (propOf (heap w) arg3 "getRegistry")); [done|].
  by destruct (typeof (propOf (heap w) arg3 "getRegistry") =? "function").
Qed.

Lemma Index_error_precedence_witness :
  fst (Index.setupPromClient Sample.env Sample.server Sample.path (VRef 10) Sample2.world1)
  = Throw (TypeError "arg3.use must be of type array").
Proof.
  apply (Index_error_precedence Sample.env Sample.server Sample.path (VRef 10)
           Sample2.world1); reflexivity.
Defined.

(** X7. A number or a boolean as third argument: part_000 takes its last
    branch, the one meant for a function, and rejects the value as a
    [getRegistry] that is not callable, before any registry is created;
    index.ts finds no field on it and does what it does without a third
    argument. *)
Theorem primitive_third_argument env server path arg3 w :
  validServer (heap w) server = true ->
  orb (String.eqb (typeof arg3) "number") (String.eqb (typeof arg3) "boolean") = true ->
  Part000.setupPromClient env server path arg3 w
  = (Throw (TypeError "getRegistry must be of type function"), withUse w)
  /\ Index.setupPromClient env server path arg3 w
     = Index.setupPromClient env server path VUndefined w.
Proof.
  intros Hs Ht.
  assert (Hshape : (exists n, arg3 = VNumber n) \/ (exists b, arg3 = VBool b))
    by (destruct arg3; try discriminate; eauto).
  split.
  - rewrite Part000_closed by (by destruct Hshape as [[? ->]|[? ->]]).
    unfold closedPart000. rewrite Hs.
    by destruct Hshape as [[? ->]|[? ->]].
  - rewrite !Index_closed by (by destruct Hshape as [[? ->]|[? ->]]).
    by destruct Hshape as [[? ->]|[? ->]].
Qed.

Lemma primitive_third_argument_witness :
  Part000.setupPromClient Sample.env Sample.server Sample.path (VNumber 42) Sample.world0
  = (Throw (TypeError "getRegistry must be of type function"), withUse Sample.world0)
  /\ Index.setupPromClient Sample.env Sample.server Sample.path (VNumber 42) Sample.world0
     = Index.setupPromClient Sample.env Sample.server Sample.path VUndefined Sample.world0.
Proof.
  apply (primitive_third_argument Sample.env Sample.server Sample.path (VNumber 42)
           Sample.world0); reflexivity.
Defined.

(** X8. [null] as third argument is the absent argument: in each version
    the call completes exactly as with [undefined]. *)
Theorem null_third_argument env server path w :
  Index.setupPromClient env server path VNull w
  = Index.setupPromClient env server path VUndefined w
  /\ Part000.setupPromClient env server path VNull w
     = Part000.setupPromClient env server path VUndefined w.
Proof. split; [by rewrite !Index_closed | by rewrite !Part000_closed]. Qed.





Lemma registerWith_result env server path use provider method w res w' :
  registerWith env server path use provider method w = (Normal res, w') ->
  res = resultFor provider.
Proof.
  unfold registerWith. destruct (callValue _ _ _ _ _) as [[r|e] w0]; [|discriminate].
  by intros [= <- _].
Qed.

(** X10. Whatever either version returns, the returned [requestHandler]
    is the handler closed over the returned [getRegistry], and that
    [getRegistry] is a provider wrapped by [asAsync]. *)
Theorem returned_handler_uses_returned_getRegistry env server path arg3 w res w' :
  wellFormedArg (heap w) arg3 = true ->
  Index.setupPromClient env server path arg3 w = (Normal res, w')
  \/ Part000.setupPromClient env server path arg3 w = (Normal res, w') ->
  requestHandler res = VFunction (RequestHandler (getRegistry res))
  /\ exists provider, getRegistry res = asAsync provider.
Proof.
  intros Hwf H. destruct (wellFormedArg_options _ _ Hwf) as (Ha & Hu & Hau).
  assert (exists provider, res = resultFor provider) as [provider ->];
    [|split; [reflexivity | by exists provider]].
  destruct H as [H|H].
  - rewrite Index_closed in H by done. unfold closedIndex in H.
    repeat match type of H with context [if ?b then _ else _] => destruct b end;
      try discriminate; apply registerWith_result in H; eauto.
  - rewrite Part000_closed in H by done. unfold closedPart000 in H.
    repeat match type of H with context [if ?b then _ else _] => destruct b end;
      try discriminate; apply registerWith_result in H; eauto.
Qed.

Lemma returned_handler_uses_returned_getRegistry_witness :
  requestHandler (resultFor (VFunction (Native 7)))
  = VFunction (RequestHandler (getRegistry (resultFor (VFunction (Native 7)))))
  /\ exists provider, getRegistry (resultFor (VFunction (Native 7))) = asAsync provider.
Proof.
  apply (returned_handler_uses_returned_getRegistry Sample.env Sample.server Sample.path
           (VFunction (Native 7)) Sample.world0 (resultFor (VFunction (Native 7)))
           (withCall 0 Sample.server
              [Sample.path; VRef (useLoc Sample.world0);
               requestHandler (resultFor (VFunction (Native 7)))]
              (withUse Sample.world0)));
    [reflexivity | right; reflexivity].
Defined.

(** X11. When the server has no function under the resolved method name,
    a call whose third argument is absent or an options object with
    passing fields throws a type error at the registration, in both
    versions: nothing is registered, and the world is the one the checks
    left, with the default registry created when [getRegistry] was
    absent. *)
Theorem unsupported_method_throws env server path arg3 w :
  validServer (heap w) server = true ->
  isNil arg3 || isOptionsObject (heap w) arg3 = true ->
  badGetRegistry (propOf (heap w) arg3 "getRegistry") = false ->
  badUse (heap w) (propOf (heap w) arg3 "use") = false ->
  badHttpMethod (propOf (heap w) arg3 "httpMethod") = false ->
  String.eqb
    (typeof (propOf (heap w) server (methodOf (propOf (heap w) arg3 "httpMethod"))))
    "function" = false ->
  exists message,
    Index.setupPromClient env server path arg3 w
    = (Throw (TypeError message),
       afterUse env (propOf (heap w) arg3 "getRegistry") (propOf (heap w) arg3 "use") w)
    /\ Part000.setupPromClient env server path arg3 w
       = (Throw (TypeError message),
          afterUse env (propOf (heap w) arg3 "getRegistry") (propOf (heap w) arg3 "use") w)
    /\ trace (afterUse env (propOf (heap w) arg3 "getRegistry")
                (propOf (heap w) arg3 "use") w)
       = (trace w ++
          (if isNil (propOf (heap w) arg3 "getRegistry")
           then [EvNewRegistry (registryLoc w);
                 EvCollectDefaultMetrics (VRef (registryLoc w))]
           else []))%list.
Proof.
  intros Hs Ho Hg Hu Hm Hverb.
  destruct (isOptionsObject_shape _ _ Ho) as (Hr & Harr & Hstr & Ha).
  assert (Hau := badUse_false_allocated _ _ Hu).
  assert (Hreg : forall provider,
    registerWith env server path (VRef (useLoc w)) provider
      (methodOf (propOf (heap w) arg3 "httpMethod"))
      (afterUse env (propOf (heap w) arg3 "getRegistry") (propOf (heap w) arg3 "use") w)
    = (Throw (TypeError "is not a function"),
       afterUse env (propOf (heap w) arg3 "getRegistry") (propOf (heap w) arg3 "use") w)).
  { intros provider. unfold registerWith.
    rewrite (propOf_agree (heap w))
      by (apply agree_afterUse; by apply validServer_allocated).
    destruct (propOf (heap w) server _); try discriminate; reflexivity. }
  exists "is not a function". split; [|split].
  - rewrite Index_closed by done. unfold closedIndex.
    rewrite Hs, Hr, Harr, Hstr, Hu, Hm. cbn [negb].
    replace (typeof (providerOf (propOf (heap w) arg3 "getRegistry") w) =? "function")
      with true; [apply Hreg|].
    unfold badGetRegistry, providerOf in *.
    destruct (isNil (propOf (heap w) arg3 "getRegistry")); [done|].
    by destruct (typeof (propOf (heap w) arg3 "getRegistry") =? "function").
  - rewrite Part000_closed by (by rewrite ?optionsOf_fields).
    unfold closedPart000. rewrite !optionsOf_fields by done.
    rewrite Hs, Hg, Hu, Hm. apply Hreg.
  - by rewrite trace_afterUse, trace_afterRegistry.
Qed.

Lemma unsupported_method_throws_witness :
  exists message,
    Index.setupPromClient Sample.env Sample.server Sample.path (VRef 9) Sample2.world1
    = (Throw (TypeError message),
       afterUse Sample.env VUndefined VUndefined Sample2.world1)
    /\ Part000.setupPromClient Sample.env Sample.server Sample.path (VRef 9) Sample2.world1
       = (Throw (TypeError message),
          afterUse Sample.env VUndefined VUndefined Sample2.world1)
    /\ trace (afterUse Sample.env VUndefined VUndefined Sample2.world1)
       = [EvNewRegistry (registryLoc Sample2.world1);
          EvCollectDefaultMetrics (VRef (registryLoc Sample2.world1))].
Proof.
  apply (unsupported_method_throws Sample.env Sample.server Sample.path (VRef 9)
           Sample2.world1); reflexivity.
Defined.

(** X12. Every call of either version, the ones that throw included,
    leaves every object that existed before the call as it was: only
    locations allocated by the call are written. *)
Theorem caller_heap_unchanged_by_any_call env server path arg3 w l :
  wellFormedArg (heap w) arg3 = true ->
  is_Some (heap w !! l) ->
  heap (snd (Index.setupPromClient env server path arg3 w)) !! l = heap w !! l
  /\ heap (snd (Part000.setupPromClient env server path arg3 w)) !! l = heap w !! l.
Proof. intros Hwf Hl. split; [by apply Index_frame | by apply Part000_frame]. Qed.

Lemma caller_heap_unchanged_by_any_call_witness :
  heap (snd (Index.setupPromClient Sample.env Sample.server Sample.path (VRef 5)
               Sample.world0)) !! 5%positive = heap Sample.world0 !! 5%positive
  /\ heap (snd (Part000.setupPromClient Sample.env Sample.server Sample.path (VRef 5)
                  Sample.world0)) !! 5%positive = heap Sample.world0 !! 5%positive.
Proof.
  apply (caller_heap_unchanged_by_any_call Sample.env Sample.server Sample.path (VRef 5)
           Sample.world0 5%positive); [reflexivity | by eexists].
Defined.

(** ** Calls in sequence *)

Lemma default_setup env server path w vid :
  validServer (heap w) server = true ->
  propOf (heap w) server "get" = VFunction (Native vid) ->
  returnsNormally env vid ->
  Index.setupPromClient env server path VUndefined w
  = (Normal (resultFor (VFunction (AsyncConst (VRef (registryLoc w))))),
     withCall vid server
       [path; VRef (useLoc w);
        requestHandler (resultFor (VFunction (AsyncConst (VRef (registryLoc w)))))]
       (withDefaultRegistry env w))
  /\ Part000.setupPromClient env server path VUndefined w
     = (Normal (resultFor (VFunction (AsyncConst (VRef (registryLoc w))))),
        withCall vid server
          [path; VRef (useLoc w);
           requestHandler (resultFor (VFunction (AsyncConst (VRef (registryLoc w)))))]
          (withDefaultRegistry env w)).
Proof.
  intros Hs Hverb Hn. split.
  - by apply (Index_passes env server path VUndefined w vid).
  - by apply (Part000_passes env server path VUndefined w vid).
Qed.

(** X13. Two calls without a third argument, one after the other on the
    same server, each create a registry of their own: the second registry
    is at another location than the first, and the first is still there,
    as it was, after the second call. *)
Theorem each_call_creates_its_own_registry env server path path' w vid :
  validServer (heap w) server = true ->
  propOf (heap w) server "get" = VFunction (Native vid) ->
  returnsNormally env vid ->
  exists w1 w2,
    Index.setupPromClient env server path VUndefined w
    = (Normal (resultFor (VFunction (AsyncConst (VRef (registryLoc w))))), w1)
    /\ Part000.setupPromClient env server path VUndefined w
       = (Normal (resultFor (VFunction (AsyncConst (VRef (registryLoc w))))), w1)
    /\ Index.setupPromClient env server path' VUndefined w1
       = (Normal (resultFor (VFunction (AsyncConst (VRef (registryLoc w1))))), w2)
    /\ Part000.setupPromClient env server path' VUndefined w1
       = (Normal (resultFor (VFunction (AsyncConst (VRef (registryLoc w1))))), w2)
    /\ registryLoc w1 ≠ registryLoc w
    /\ heap w2 !! registryLoc w
       = Some (HRegistry (withDefaultMetrics env (newRegistryState env)))
    /\ heap w2 !! registryLoc w1
       = Some (HRegistry (withDefaultMetrics env (newRegistryState env))).
Proof.
  intros Hs Hverb Hn.
  destruct (default_setup env server path w vid Hs Hverb Hn) as [HI HP].
  set (w1 := withCall vid server
               [path; VRef (useLoc w);
                requestHandler (resultFor (VFunction (AsyncConst (VRef (registryLoc w)))))]
               (withDefaultRegistry env w)) in *.
  assert (Hag : agree (heap w) (heap w1) server)
    by (apply agree_withDefaultRegistry; by apply validServer_allocated).
  assert (Hs1 : validServer (heap w1) server = true)
    by (unfold validServer; by rewrite (propOf_agree _ _ _ Hag)).
  assert (Hverb1 : propOf (heap w1) server "get" = VFunction (Native vid))
    by (by rewrite (propOf_agree _ _ _ Hag)).
  destruct (default_setup env server path' w1 vid Hs1 Hverb1 Hn) as [HI1 HP1].
  assert (Hl : heap w1 !! registryLoc w
               = Some (HRegistry (withDefaultMetrics env (newRegistryState env))))
    by apply lookup_insert_eq.
  do 2 eexists. repeat split; [exact HI | exact HP | exact HI1 | exact HP1 | | |].
  - apply allocated_ne_registry. by rewrite Hl.
  - cbn [withCall heap]. rewrite <- Hl.
    apply (agree_withDefaultRegistry env w1 (VRef (registryLoc w))).
    apply ref_allocated. by rewrite Hl.
  - apply lookup_insert_eq.
Qed.

Lemma each_call_creates_its_own_registry_witness :
  exists w1 w2,
    Index.setupPromClient Sample.env Sample.server Sample.path VUndefined Sample.world0
    = (Normal (resultFor (VFunction (AsyncConst (VRef (registryLoc Sample.world0))))), w1)
    /\ Part000.setupPromClient Sample.env Sample.server Sample.path VUndefined Sample.world0
       = (Normal (resultFor (VFunction (AsyncConst (VRef (registryLoc Sample.world0))))), w1)
    /\ Index.setupPromClient Sample.env Sample.server (VString "/metrics") VUndefined w1
       = (Normal (resultFor (VFunction (AsyncConst (VRef (registryLoc w1))))), w2)
    /\ Part000.setupPromClient Sample.env Sample.server (VString "/metrics") VUndefined w1
       = (Normal (resultFor (VFunction (AsyncConst (VRef (registryLoc w1))))), w2)
    /\ registryLoc w1 ≠ registryLoc Sample.world0
    /\ heap w2 !! registryLoc Sample.world0
       = Some (HRegistry (withDefaultMetrics Sample.env (newRegistryState Sample.env)))
    /\ heap w2 !! registryLoc w1
       = Some (HRegistry (withDefaultMetrics Sample.env (newRegistryState Sample.env))).
Proof.
  apply (each_call_creates_its_own_registry Sample.env Sample.server Sample.path
           (VString "/metrics") Sample.world0 0);
    [reflexivity | reflexivity | exact returnsNormally_sample_get].
Defined.

Lemma requestHandler_on_registry env l this request response rest w st body :
  heap w !! l = Some (HRegistry st) ->
  metrics st = inl body ->
  callValue env (requestHandler (resultFor (VFunction (AsyncConst (VRef l))))) this
    (request :: response :: rest) w
  = (Normal (VPromise Fulfilled VUndefined),
     {| heap := heap w;
        trace := trace w ++
          [EvWriteHead response 200
             [("Content-Type", VString (contentType st));
              ("Content-Length", VString (String_ (lengthOf (VString body))))];
           EvWrite response (VString body)] |}).
Proof.
  intros Hl Hbody. cbn [resultFor requestHandler].
  rewrite requestHandler_call. unfold async, requestHandlerBody.
  erewrite bind_eq by reflexivity. cbn [settle await].
  run (run_ret _ _).
  unfold Registry_metrics. rewrite bind_assoc. run (run_getHeap _). rewrite Hl, Hbody.
  run (run_ret _ _). cbn [await]. run (run_ret _ _).
  unfold Registry_contentType. rewrite bind_assoc. run (run_getHeap _). rewrite Hl.
  run (run_ret _ _).
  unfold bind, emit, ret. cbn [heap trace settle].
  by rewrite <- app_assoc.
Qed.

(** X14. After a call without a third argument, the returned handler
    serves the registry that call created, in the state the registry has
    when the request comes: in any later world where that registry's
    [metrics()] yields a body, the handler writes status 200, the
    registry's content type, the length of the body and the body. Right
    after the call the registry holds the default metrics. *)
Theorem default_setup_then_request env server path w vid :
  validServer (heap w) server = true ->
  propOf (heap w) server "get" = VFunction (Native vid) ->
  returnsNormally env vid ->
  exists res w',
    Index.setupPromClient env server path VUndefined w = (Normal res, w')
    /\ Part000.setupPromClient env server path VUndefined w = (Normal res, w')
    /\ heap w' !! registryLoc w
       = Some (HRegistry (withDefaultMetrics env (newRegistryState env)))
    /\ forall this request response rest w2 st body,
         heap w2 !! registryLoc w = Some (HRegistry st) ->
         metrics st = inl body ->
         callValue env (requestHandler res) this (request :: response :: rest) w2
         = (Normal (VPromise Fulfilled VUndefined),
            {| heap := heap w2;
               trace := trace w2 ++
                 [EvWriteHead response 200
                    [("Content-Type", VString (contentType st));
                     ("Content-Length", VString (String_ (lengthOf (VString body))))];
                  EvWrite response (VString body)] |}).
Proof.
  intros Hs Hverb Hn.
  destruct (default_setup env server path w vid Hs Hverb Hn) as [HI HP].
  do 2 eexists. split; [exact HI|]. split; [exact HP|]. split.
  - apply lookup_insert_eq.
  - intros. by apply requestHandler_on_registry.
Qed.

Lemma default_setup_then_request_witness :
  exists res w',
    Index.setupPromClient Sample.env Sample.server Sample.path VUndefined Sample.world0
    = (Normal res, w')
    /\ Part000.setupPromClient Sample.env Sample.server Sample.path VUndefined Sample.world0
       = (Normal res, w')
    /\ heap w' !! registryLoc Sample.world0
       = Some (HRegistry (withDefaultMetrics Sample.env (newRegistryState Sample.env)))
    /\ forall this request response rest w2 st body,
         heap w2 !! registryLoc Sample.world0 = Some (HRegistry st) ->
         metrics st = inl body ->
         callValue Sample.env (requestHandler res) this (request :: response :: rest) w2
         = (Normal (VPromise Fulfilled VUndefined),
            {| heap := heap w2;
               trace := trace w2 ++
                 [EvWriteHead response 200
                    [("Content-Type", VString (contentType st));
                     ("Content-Length", VString (String_ (lengthOf (VString body))))];
                  EvWrite response (VString body)] |}).
Proof.
  apply (default_setup_then_request Sample.env Sample.server Sample.path Sample.world0 0);
    [reflexivity | reflexivity | exact returnsNormally_sample_get].
Defined.

(** ** What is logged *)

(** X15. Whatever the provider is and does, a call of the handler calls
    it once, with no argument, and then either writes nothing or writes a
    head with status 200 followed by one body, both to the response it
    was given: never a body without a head, never a second write. The
    heap is as the call found it. *)
Theorem requestHandler_writes_head_then_body env g this args w :
  exists tail,
    trace (snd (callValue env (VFunction (RequestHandler g)) this args w))
    = (trace (snd (callValue env g VUndefined [] w)) ++ tail)%list
    /\ (tail = []
        \/ exists headers body,
             tail = [EvWriteHead (nth 1 args VUndefined) 200 headers;
                     EvWrite (nth 1 args VUndefined) body])
    /\ heap (snd (callValue env (VFunction (RequestHandler g)) this args w)) = heap w.
Proof.
  assert (Hnone : forall (x : list Event), x = (x ++ [])%list /\ (@nil Event = []
            \/ exists headers body,
                 @nil Event = [EvWriteHead (nth 1 args VUndefined) 200 headers;
                               EvWrite (nth 1 args VUndefined) body]))
    by (intros x; split; [by rewrite app_nil_r | by left]).
  cut (exists tail,
    trace (snd (callValue env (VFunction (RequestHandler g)) this args w))
    = (trace (snd (callValue env g VUndefined [] w)) ++ tail)%list
    /\ (tail = []
        \/ exists headers body,
             tail = [EvWriteHead (nth 1 args VUndefined) 200 headers;
                     EvWrite (nth 1 args VUndefined) body])).
  { intros (tail & H1 & H2). exists tail. repeat split; [done | done |].
    apply callValue_heap. }
  cbn [callValue callBody]. unfold async, requestHandlerBody.
  unfold bind at 1.
  destruct (callValue env g VUndefined [] w) as [[p|e] w1]; cbn [snd];
    [|exists []; apply Hnone].
  assert (Hreg : forall registry,
    exists tail,
      trace (snd (let (c, w') :=
        (q <- Registry_metrics registry ;;
         responseData <- await q ;;
         ct <- Registry_contentType registry ;;
         emit (EvWriteHead (nth 1 args VUndefined) 200
                 [("Content-Type", ct);
                  ("Content-Length", VString (String_ (lengthOf responseData)))]) ;;;
         emit (EvWrite (nth 1 args VUndefined) responseData) ;;;
         ret VUndefined) w1 in (Normal (settle c), w')))
      = (trace w1 ++ tail)%list
      /\ (tail = []
          \/ exists headers body,
               tail = [EvWriteHead (nth 1 args VUndefined) 200 headers;
                       EvWrite (nth 1 args VUndefined) body])).
  { intros registry. unfold Registry_metrics, Registry_contentType.
    unfold bind, getHeap, emit, ret, throw. cbn [heap trace].
    destruct registry; try (exists []; apply Hnone).
    destruct (heap w1 !! l) as [[| |st]|] eqn:Hl; try (exists []; apply Hnone).
    destruct (metrics st) as [body|e]; cbn [await];
      [|exists []; apply Hnone].
    unfold ret. cbn [snd trace heap]. rewrite Hl. cbn [snd trace heap].
    eexists. split; [by rewrite <- app_assoc|]. right. eauto. }
  destruct p; cbn [await]; unfold bind at 1, ret at 1; try apply Hreg.
  destruct st; [apply Hreg|]. exists []. apply Hnone.
Qed.

Lemma hostOnly_pure {A} (m : M A) : (forall w, snd (m w) = w) -> hostOnly m.
Proof. intros H w. exists []. by rewrite H, app_nil_r. Qed.

Lemma hostOnly_bind {A B} (m : M A) (k : A -> M B) :
  hostOnly m -> (forall a, hostOnly (k a)) -> hostOnly (bind m k).
Proof.
  intros Hm Hk w. unfold bind. destruct (Hm w) as (evs & E & F).
  destruct (m w) as [[a|e] w1]; cbn [snd] in *; [|by exists evs].
  destruct (Hk a w1) as (evs' & E' & F'). exists (evs ++ evs')%list.
  rewrite E', E, app_assoc. split; [done|]. rewrite forallb_app. by rewrite F, F'.
Qed.

Lemma hostOnly_emit e : hostEvent e = true -> hostOnly (emit e).
Proof. intros H w. exists [e]. simpl. by rewrite H. Qed.

Lemma hostOnly_async (m : M JSValue) : hostOnly m -> hostOnly (async m).
Proof.
  intros Hm w. unfold async. destruct (Hm w) as (evs & E & F).
  destruct (m w) as [c w1]. by exists evs.
Qed.

Lemma hostOnly_requestHandlerBody (call : M JSValue) response :
  hostOnly call -> hostOnly (requestHandlerBody call response).
Proof.
  intros Hc. unfold requestHandlerBody.
  apply hostOnly_bind; [done|]. intros p.
  apply hostOnly_bind;
    [apply hostOnly_pure; intros w; destruct p; try done; by destruct st|].
  intros registry.
  apply hostOnly_bind.
  { apply hostOnly_pure. intros w. unfold Registry_metrics, bind, getHeap. simpl.
    destruct registry; try done. by destruct (heap w !! l) as [[]|]. }
  intros q.
  apply hostOnly_bind;
    [apply hostOnly_pure; intros w; destruct q; try done; by destruct st|].
  intros data.
  apply hostOnly_bind.
  { apply hostOnly_pure. intros w. unfold Registry_contentType, bind, getHeap. simpl.
    destruct registry; try done. by destruct (heap w !! l) as [[]|]. }
  intros ct.
  apply hostOnly_bind; [by apply hostOnly_emit|]. intros _.
  apply hostOnly_bind; [by apply hostOnly_emit|]. intros _.
  by apply hostOnly_pure.
Qed.

Lemma hostOnly_callValue env f : forall this args, hostOnly (callValue env f this args).
Proof.
  induction f using JSValue_mut
    with (P0 := fun b => forall this args, hostOnly (callBody env b this args));
    intros this args; try (by apply hostOnly_pure).
  - apply IHf.
  - cbn [callBody]. unfold callNative.
    apply hostOnly_bind; [by apply hostOnly_emit|]. intros _. by apply hostOnly_pure.
  - cbn [callBody]. apply hostOnly_async, IHf.
  - cbn [callBody]. apply hostOnly_async, hostOnly_requestHandlerBody, IHf.
Qed.

Lemma hostOnly_registerWith env server path use provider method :
  hostOnly (registerWith env server path use provider method).
Proof.
  intros w. unfold registerWith.
  destruct (hostOnly_callValue env (propOf (heap w) server method) server
              [path; use; VFunction (RequestHandler (asAsync provider))] w) as (evs & E & F).
  destruct (callValue _ _ _ _ _). by exists evs.
Qed.

(** X16. The events of any call of either version are: possibly the
    creation of one registry, at a location that was free, immediately
    followed by one collection of the default metrics into that registry;
    then host events only (the registration and what it logs). So a call
    creates at most one registry and never collects default metrics into
    a registry of the caller. *)
Theorem setup_event_discipline env server path arg3 w :
  wellFormedArg (heap w) arg3 = true ->
  heap w !! registryLoc w = None
  /\ (exists (created : bool) post,
        trace (snd (Index.setupPromClient env server path arg3 w))
        = ((trace w ++
            (if created then [EvNewRegistry (registryLoc w);
                              EvCollectDefaultMetrics (VRef (registryLoc w))]
             else [])) ++ post)%list
        /\ forallb hostEvent post = true)
  /\ (exists (created : bool) post,
        trace (snd (Part000.setupPromClient env server path arg3 w))
        = ((trace w ++
            (if created then [EvNewRegistry (registryLoc w);
                              EvCollectDefaultMetrics (VRef (registryLoc w))]
             else [])) ++ post)%list
        /\ forallb hostEvent post = true).
Proof.
  intros Hwf. destruct (wellFormedArg_options _ _ Hwf) as (Ha & Hu & Hau).
  split; [apply registryLoc_fresh|].
  assert (Hnone : exists (created : bool) post,
    trace w = ((trace w ++
            (if created then [EvNewRegistry (registryLoc w);
                              EvCollectDefaultMetrics (VRef (registryLoc w))]
             else [])) ++ post)%list /\ forallb hostEvent post = true)
    by (exists false, []; by rewrite !app_nil_r).
  assert (Hreg : forall g, exists (created : bool) post,
    trace (afterRegistry env g w) = ((trace w ++
            (if created then [EvNewRegistry (registryLoc w);
                              EvCollectDefaultMetrics (VRef (registryLoc w))]
             else [])) ++ post)%list /\ forallb hostEvent post = true).
  { intros g. rewrite trace_afterRegistry. exists (isNil g), []. by rewrite app_nil_r. }
  assert (Hcall : forall use provider method w3,
    (exists (created : bool) post,
      trace w3 = ((trace w ++
            (if created then [EvNewRegistry (registryLoc w);
                              EvCollectDefaultMetrics (VRef (registryLoc w))]
             else [])) ++ post)%list /\ forallb hostEvent post = true) ->
    exists (created : bool) post,
      trace (snd (registerWith env server path use provider method w3))
      = ((trace w ++
            (if created then [EvNewRegistry (registryLoc w);
                              EvCollectDefaultMetrics (VRef (registryLoc w))]
             else [])) ++ post)%list /\ forallb hostEvent post = true).
  { intros use provider method w3 (created & post & E & F).
    destruct (hostOnly_registerWith env server path use provider method w3)
      as (evs & E' & F').
    exists created, (post ++ evs)%list. rewrite E', E, app_assoc.
    split; [done|]. rewrite forallb_app. by rewrite F, F'. }
  split.
  - rewrite Index_closed by done. unfold closedIndex.
    repeat match goal with |- context [if ?b then _ else _] => destruct b end;
      try apply Hcall; cbn [snd]; rewrite ?trace_afterUse; auto.
  - rewrite Part000_closed by done. unfold closedPart000.
    repeat match goal with |- context [if ?b then _ else _] => destruct b end;
      try apply Hcall; cbn [snd]; rewrite ?trace_afterUse; auto.
Qed.

Lemma setup_event_discipline_witness :
  heap Sample.world0 !! registryLoc Sample.world0 = None
  /\ (exists (created : bool) post,
        trace (snd (Index.setupPromClient Sample.env Sample.server Sample.path (VRef 4)
                      Sample.world0))
        = ((trace Sample.world0 ++
            (if created then [EvNewRegistry (registryLoc Sample.world0);
                              EvCollectDefaultMetrics (VRef (registryLoc Sample.world0))]
             else [])) ++ post)%list
        /\ forallb hostEvent post = true)
  /\ (exists (created : bool) post,
        trace (snd (Part000.setupPromClient Sample.env Sample.server Sample.path (VRef 4)
                      Sample.world0))
        = ((trace Sample.world0 ++
            (if created then [EvNewRegistry (registryLoc Sample.world0);
                              EvCollectDefaultMetrics (VRef (registryLoc Sample.world0))]
             else [])) ++ post)%list
        /\ forallb hostEvent post = true).
Proof.
  apply (setup_event_discipline Sample.env Sample.server Sample.path (VRef 4)
           Sample.world0); reflexivity.
Defined.
